(** * picpro helper scripts: a shallow embedding and its properties

    The repository's scripts ([backup_and_erase.py], [list_chips.py],
    [test_16f887_zif.py], [test_zif_hardware.py]) are embedded as Rocq
    functions.  Console output, calls into the [picpro] library and
    file-system queries are recorded as traces of events, exceptions and
    early returns as completions of a small control monad.  The parts of the
    [picpro] package the scripts import but do not contain (the chip catalog
    and the programming session) are modelled from the specification and
    marked as such. *)

From Stdlib Require Import ZArith Ascii String List Lia Sorted Permutation.
From Stdlib.Strings Require Import Byte.
From stdpp Require Import base option list sorting strings gmap fin_maps.
Import ListNotations.

Local Open Scope string_scope.
Local Open Scope Z_scope.
Local Open Scope list_scope.

(** ** Python values the scripts rely on *)

Module Py.

(** Python [str] is modelled as a byte string (UTF-8); the case mappings
    act on the ASCII letters, which is everything the scripts compare
    against. *)

Definition lower_ascii (c : ascii) : ascii :=
  let n := nat_of_ascii c in
  if (65 <=? n)%nat && (n <=? 90)%nat then ascii_of_nat (n + 32) else c.

Definition upper_ascii (c : ascii) : ascii :=
  let n := nat_of_ascii c in
  if (97 <=? n)%nat && (n <=? 122)%nat then ascii_of_nat (n - 32) else c.

Fixpoint lower (s : string) : string :=
  match s with
  | EmptyString => EmptyString
  | String c s' => String (lower_ascii c) (lower s')
  end.

Fixpoint upper (s : string) : string :=
  match s with
  | EmptyString => EmptyString
  | String c s' => String (upper_ascii c) (upper s')
  end.

(** [s * n] *)
Fixpoint repeat_str (s : string) (n : nat) : string :=
  match n with
  | O => EmptyString
  | S n' => s +:+ repeat_str s n'
  end.

Definition nl : string := String (ascii_of_nat 10) EmptyString.

(** [str(b)] for a [bool] *)
Definition str_bool (b : bool) : string := if b then "True" else "False".

Definition hex_digit (n : N) : ascii :=
  if (n <? 10)%N then ascii_of_N (48 + n) else ascii_of_N (87 + n).

Fixpoint hex_pos (fuel : nat) (n : N) (acc : string) : string :=
  match fuel with
  | O => acc
  | S fuel' =>
      let acc' := String (hex_digit (n mod 16)) acc in
      if (n / 16 =? 0)%N then acc' else hex_pos fuel' (n / 16) acc'
  end.

(** [hex(z)] : ["0x20f0"], ["-0x5"], ["0x0"] *)
Definition hex (z : Z) : string :=
  let n := Z.to_N (Z.abs z) in
  let digits := hex_pos (S (N.to_nat (N.log2 n))) n EmptyString in
  if z <? 0 then "-0x" +:+ digits else "0x" +:+ digits.

Fixpoint dec_pos (fuel : nat) (n : N) (acc : string) : string :=
  match fuel with
  | O => acc
  | S fuel' =>
      let acc' := String (ascii_of_N (48 + n mod 10)) acc in
      if (n / 10 =? 0)%N then acc' else dec_pos fuel' (n / 10) acc'
  end.

(** [str(z)] for an [int] *)
Definition str_int (z : Z) : string :=
  let n := Z.to_N (Z.abs z) in
  let digits := dec_pos (S (N.to_nat (N.log2 n))) n EmptyString in
  if z <? 0 then "-" +:+ digits else digits.

(** The exceptions the scripts distinguish: [FileNotFoundError] and every
    other subclass of [Exception] are caught by [except Exception];
    [KeyboardInterrupt] derives from [BaseException] only and is caught by
    a bare [except:] alone. *)
Inductive exn : Type :=
| FileNotFoundError (msg : string)
| EOFError
| OtherException (cls msg : string)
| KeyboardInterrupt.

Definition is_Exception (e : exn) : bool :=
  match e with
  | KeyboardInterrupt => false
  | _ => true
  end.

Definition is_FileNotFoundError (e : exn) : bool :=
  match e with
  | FileNotFoundError _ => true
  | _ => false
  end.

(** [str(e)] *)
Definition str_exn (e : exn) : string :=
  match e with
  | FileNotFoundError msg => msg
  | EOFError => ""
  | OtherException _ msg => msg
  | KeyboardInterrupt => ""
  end.

(** [pathlib.Path] on POSIX: an anchor and the components. *)
Record Path : Type := { absolute : bool; parts : list string }.

#[global] Instance Path_eq_dec : EqDecision Path.
Proof. solve_decision. Defined.

(** [p / q] *)
Definition truediv (p q : Path) : Path :=
  if absolute q then q
  else {| absolute := absolute p; parts := parts p ++ parts q |}.

Definition join_parts (l : list string) : string :=
  foldr (fun c acc => match acc with
                      | EmptyString => c
                      | _ => c +:+ "/" +:+ acc
                      end) EmptyString l.

(** [str(p)] *)
Definition str_path (p : Path) : string :=
  match absolute p, parts p with
  | true, l => "/" +:+ join_parts l
  | false, [] => "."
  | false, l => join_parts l
  end.

End Py.

(** ** Traces and control flow *)

(** The I/O of the cores the scripts drive is not part of the scripts; what a
    run does to the outside is recorded as a trace of events. *)
Inductive event : Type :=
| Print (s : string)                     (* print(s) *)
| Input (prompt : string)                (* input(prompt) *)
| PathExists (p : Py.Path)               (* p.exists() *)
| ReaderInit (p : Py.Path)               (* ChipInfoReader(p) *)
| GetChip (name : string)                (* reader.get_chip(name) *)
| ConnectionInit (port : string)         (* Connection(port) *)
| ConnectionEnter (ok : bool)            (* connection.__enter__(), and whether it returned *)
| ConnectionExit (e : option Py.exn)     (* connection.__exit__(...) *)
| GetProgrammingInterface (icsp : bool)  (* connection.get_programming_interface(..) *)
| InterfaceEnter (ok : bool)             (* prog_interface.__enter__(), and whether it returned *)
| InterfaceExit (e : option Py.exn)      (* prog_interface.__exit__(...) *)
| ReadConfig                             (* prog_interface.read_config() *)
| ReadDeviceId.                          (* prog_interface.read_device_id() *)

#[global] Instance byte_eq_dec : EqDecision byte := Byte.byte_eq_dec.

#[global] Instance exn_eq_dec : EqDecision Py.exn.
Proof. solve_decision. Defined.

#[global] Instance event_eq_dec : EqDecision event.
Proof. solve_decision. Defined.

Module Ctl.

(** How a block of statements ends: it falls through with a value, executes
    [return r], or raises. *)
Inductive completion (R A : Type) : Type :=
| Normal (a : A)
| Return (r : R)
| Raise (e : Py.exn).
Arguments Normal {R A} a.
Arguments Return {R A} r.
Arguments Raise {R A} e.

Definition M (R A : Type) : Type := (list event * completion R A)%type.

Definition ret {R A} (a : A) : M R A := ([], Normal a).

Definition bind {R A B} (m : M R A) (f : A -> M R B) : M R B :=
  match m with
  | (tr, Normal a) => let '(tr', c) := f a in (tr ++ tr', c)
  | (tr, Return r) => (tr, Return r)
  | (tr, Raise e) => (tr, Raise e)
  end.

(** [print(s)]; writing to the console is taken to succeed. *)
Definition print {R} (s : string) : M R unit := ([Print s], Normal tt).

Definition return_ {R A} (r : R) : M R A := ([], Return r).

Definition raise {R A} (e : Py.exn) : M R A := ([], Raise e).

(** A call into code outside the script: the event, and what came back. *)
Definition call {R A} (ev : event) (outcome : Py.exn + A) : M R A :=
  ([ev], match outcome with inl e => Raise e | inr a => Normal a end).

(** [try: body / except ...: ...]: [handlers e] is the body of the first
    [except] clause that matches [e], if one does. *)
Definition try_except {R A} (body : M R A)
    (handlers : Py.exn -> option (M R A)) : M R A :=
  match body with
  | (tr, Raise e) =>
      match handlers e with
      | Some h => let '(tr', c) := h in (tr ++ tr', c)
      | None => (tr, Raise e)
      end
  | other => other
  end.

(** What [__exit__] does: it returns (a true value swallows the exception
    in flight) or raises itself. *)
Inductive exit_outcome : Type :=
| ExitReturn (suppress : bool)
| ExitRaise (e : Py.exn).

(** [with expr as v: body].  [__exit__] runs on every way out of the body
    once [__enter__] has returned, and on none before that. *)
Definition with_ {R A} (expr : M R A) (enter : A -> M R unit)
    (exit : A -> option Py.exn -> list event * exit_outcome)
    (body : A -> M R unit) : M R unit :=
  bind expr (fun mgr =>
  bind (enter mgr) (fun _ =>
    let '(tr, c) := body mgr in
    match c with
    | Normal _ =>
        let '(tx, o) := exit mgr None in
        (tr ++ tx, match o with
                   | ExitReturn _ => Normal tt
                   | ExitRaise e' => Raise e'
                   end)
    | Return r =>
        let '(tx, o) := exit mgr None in
        (tr ++ tx, match o with
                   | ExitReturn _ => Return r
                   | ExitRaise e' => Raise e'
                   end)
    | Raise e =>
        let '(tx, o) := exit mgr (Some e) in
        (tr ++ tx, match o with
                   | ExitReturn true => Normal tt
                   | ExitReturn false => Raise e
                   | ExitRaise e' => Raise e'
                   end)
    end)).

(** The result of calling a function: the value it returned ([None] when
    it fell off its end) or the exception that left it. *)
Definition run_def {R} (m : M R unit) : list event * (Py.exn + option R) :=
  match m with
  | (tr, Normal _) => (tr, inr None)
  | (tr, Return r) => (tr, inr (Some r))
  | (tr, Raise e) => (tr, inl e)
  end.

End Ctl.

(** stdpp's monad notations ([x ← m; k] and [m;; k]) are used for [Ctl.M]. *)
#[global] Instance Ctl_ret {R} : MRet (Ctl.M R) := fun A a => Ctl.ret a.
#[global] Instance Ctl_bind {R} : MBind (Ctl.M R) := fun A B f m => Ctl.bind m f.

(** A call of one of the script's own functions from another: its trace is
    part of the caller's, its return value ([None] when it fell off its end)
    is the value of the call, and an exception that left it is raised in the
    caller. *)
Definition call_def {R R'} (callee : Ctl.M R' unit) : Ctl.M R (option R') :=
  match Ctl.run_def callee with
  | (tr, inl e) => (tr, Ctl.Raise e)
  | (tr, inr v) => (tr, Ctl.Normal v)
  end.

(** ** backup_and_erase.py *)

Module backup_and_erase.

(** The parsed command line ([argparse] is glue and not modelled):
    [--output] may be absent, [--dry-run] is a flag. *)
Record Args : Type := {
  chip_type : string;
  port : string;
  output : option string;
  dry_run : bool
}.

(** The command string [backup_chip] builds. *)
Definition backup_command (chip_type port output_file : string) : string :=
  "picpro read --pic_type " +:+ chip_type +:+ " --port " +:+ port
    +:+ " --icsp rom --hex_file " +:+ output_file.

(** The command string [erase_chip] builds. *)
Definition erase_command (chip_type port : string) : string :=
  "picpro erase --pic_type " +:+ chip_type +:+ " --port " +:+ port +:+ " --icsp".

Definition backup_chip {R} (chip_type port output_file : string) : Ctl.M R string :=
  Ctl.print ("📖 Creating backup of " +:+ Py.upper chip_type +:+ " via ICSP...");;
  Ctl.print ("   Port: " +:+ port);;
  Ctl.print ("   Output: " +:+ output_file);;
  let cmd := backup_command chip_type port output_file in
  Ctl.print ("🔧 Command: " +:+ cmd);;
  mret cmd.

Definition erase_chip {R} (chip_type port : string) : Ctl.M R string :=
  Ctl.print ("🗑️  Erasing " +:+ Py.upper chip_type +:+ "...");;
  Ctl.print ("   Port: " +:+ port);;
  let cmd := erase_command chip_type port in
  Ctl.print ("🔧 Command: " +:+ cmd);;
  mret cmd.

(** [input(prompt)]: the line read from standard input, [EOFError] when
    there is none.  (An interrupt at the prompt is not among the runs
    described.) *)
Definition input {R} (prompt : string) (stdin : option string) : Ctl.M R string :=
  Ctl.call (Input prompt)
    (match stdin with Some line => inr line | None => inl Py.EOFError end).

(** [not args.output]: absent or empty. *)
Definition output_missing (o : option string) : bool :=
  match o with
  | None => true
  | Some EmptyString => true
  | Some _ => false
  end.

(** [args.output] after the default has been filled in. *)
Definition backup_file (args : Args) (timestamp : string) : string :=
  if output_missing (output args)
  then "backup_" +:+ chip_type args +:+ "_" +:+ timestamp +:+ ".hex"
  else default EmptyString (output args).

(** [main] after argument parsing.  [timestamp] is
    [datetime.now().strftime("%Y%m%d_%H%M%S")], [stdin] the line the user
    types at the prompt. *)
Definition main (args : Args) (timestamp : string) (stdin : option string)
    : Ctl.M Z unit :=
  let output_file := backup_file args timestamp in
  Ctl.print "🔌 ICSP Backup and Erase Operation";;
  Ctl.print (Py.repeat_str "=" 40);;
  Ctl.print ("Chip: " +:+ Py.upper (chip_type args));;
  Ctl.print ("Port: " +:+ port args);;
  Ctl.print ("Backup file: " +:+ output_file);;
  Ctl.print ("Dry run: " +:+ Py.str_bool (dry_run args));;
  Ctl.print "";;
  backup_cmd ← backup_chip (chip_type args) (port args) output_file;
  if dry_run args then
    Ctl.print "DRY RUN - Commands that would be executed:";;
    Ctl.print ("1. " +:+ backup_cmd);;
    erase_cmd ← erase_chip (chip_type args) (port args);
    Ctl.print ("2. " +:+ erase_cmd);;
    Ctl.return_ 0
  else
    Ctl.print "⚠️  READY TO EXECUTE:";;
    Ctl.print "1. Create backup";;
    Ctl.print "2. Erase chip";;
    Ctl.print "";;
    response ← input "Continue? (y/N): " stdin;
    if negb (String.eqb (Py.lower response) "y") then
      Ctl.print "Operation cancelled.";;
      Ctl.return_ 0
    else
      Ctl.print (Py.nl +:+ "🚀 Starting backup and erase sequence...");;
      Ctl.print (Py.nl +:+ "📖 Step 1: Creating backup...");;
      Ctl.print ("Executing: " +:+ backup_cmd);;
      erase_cmd ← erase_chip (chip_type args) (port args);
      Ctl.print (Py.nl +:+ "🗑️  Step 2: Erasing chip...");;
      Ctl.print ("Executing: " +:+ erase_cmd);;
      Ctl.print (Py.nl +:+ "✅ Operations completed!");;
      Ctl.print ("Backup saved to: " +:+ output_file);;
      Ctl.print "Chip has been erased.";;
      Ctl.return_ 0.


(** Every line in which the script writes out the erase command: where
    [erase_chip] announces it, and where [main] quotes what [erase_chip]
    returned. *)
Definition mentions_erase_command (args : Args) (ev : event) : bool :=
  let cmd := erase_command (chip_type args) (port args) in
  bool_decide (ev = Print ("🔧 Command: " +:+ cmd))
  || bool_decide (ev = Print ("2. " +:+ cmd))
  || bool_decide (ev = Print ("Executing: " +:+ cmd)).

(** The user's answer confirms the operation. *)
Definition confirms (stdin : option string) : bool :=
  match stdin with
  | Some response => String.eqb (Py.lower response) "y"
  | None => false
  end.

End backup_and_erase.

(** ** The chip catalog ([picpro.ChipInfoReader], imported by the scripts) *)

(** The core architecture tag of a chip profile. *)
Inductive CoreType : Type :=
| classic_12bit
| classic_14bit
| enhanced_14bit
| pic18.

#[global] Instance CoreType_eq_dec : EqDecision CoreType.
Proof. solve_decision. Defined.

(** The attributes the scripts read from the value [get_chip] returns
    ([test_chip_info] prints each of them). *)
Record ChipInfoEntry : Type := {
  chip_name : string;
  rom_size : N;
  eeprom_size : N;
  chip_id : Z;
  core_type : CoreType;
  flash_chip : bool;
  icsp_only : bool
}.

#[global] Instance ChipInfoEntry_eq_dec : EqDecision ChipInfoEntry.
Proof. solve_decision. Defined.

Module ChipCatalog.

Inductive CatalogError : Type :=
| NotFound
| Malformed
| DuplicateEntry.

Inductive LookupError : Type :=
| UnknownChip.

Section Load.

(** The record layout of the catalog file is fixed by the existing
    catalog files, not by the specification: a file is taken as the
    sequence of its raw records, and [decode] reads one record, giving
    [None] for a record with a bad field count, a size field that is not
    an integer, or a record cut short by the end of the file. *)
Context {Raw : Type} (decode : Raw -> option ChipInfoEntry).

(** The identifier a profile is filed under. *)
Definition key_of (p : ChipInfoEntry) : string := Py.lower (chip_name p).

(** The identifiers of the records that decode, in file order. *)
Definition record_keys (recs : list Raw) : list string :=
  omap (fun r => key_of <$> decode r) recs.

(** Modelled from the spec: the body of [ChipCatalog.load], which is in
    [picpro/ChipInfoReader.py] and not among the scripts.  Records are
    read in file order; the first record that does not decode, or whose
    identifier is already in the catalog, fails the load. *)
Fixpoint load_records (recs : list Raw) (cat : gmap string ChipInfoEntry)
    : CatalogError + gmap string ChipInfoEntry :=
  match recs with
  | [] => inr cat
  | r :: rest =>
      match decode r with
      | None => inl Malformed
      | Some p =>
          match cat !! key_of p with
          | Some _ => inl DuplicateEntry
          | None => load_records rest (<[key_of p := p]> cat)
          end
      end
  end.

(** Modelled from the spec: [load(path)], the constructor of the catalog
    ([ChipInfoReader(path)] in the scripts).  [file] is what is at the
    path: nothing, or the records of the file. *)
Definition load (file : option (list Raw))
    : CatalogError + gmap string ChipInfoEntry :=
  match file with
  | None => inl NotFound
  | Some recs => load_records recs ∅
  end.

End Load.

(** Modelled from the spec: [lookup(name)] ([reader.get_chip(name)] in the
    scripts), an exact match of [name] against the stored identifiers. *)
Definition lookup (cat : gmap string ChipInfoEntry) (name : string)
    : LookupError + ChipInfoEntry :=
  match cat !! name with
  | Some p => inr p
  | None => inl UnknownChip
  end.

(** Lexicographic order on identifiers, as Python compares [str]. *)
Definition str_le (s1 s2 : string) : Prop := String.leb s1 s2 = true.

#[global] Instance str_le_dec : RelDecision str_le.
Proof. intros s1 s2. unfold str_le. apply _. Defined.

(** [sorted(l)] on a list of [str]. *)
Definition sorted (l : list string) : list string := merge_sort str_le l.

(** [reader.chip_entries.keys()] *)
Definition keys (cat : gmap string ChipInfoEntry) : list string :=
  (map_to_list cat).*1.

(** [list_names()]: [sorted(reader.chip_entries.keys())], as
    [list_chips.main] computes it. *)
Definition list_names (cat : gmap string ChipInfoEntry) : list string :=
  sorted (keys cat).

End ChipCatalog.

(** A delimited record layout of the kind the catalog description allows:
    seven fields, in the order name, ROM size, EEPROM size, device ID, core
    tag, flash flag, ICSP-only flag; sizes in decimal, the device ID in
    hexadecimal, flags as [0] or [1].  It serves to run the catalog on
    concrete files. *)
Module DelimitedLayout.

Definition digit_value (c : ascii) : option N :=
  let n := N_of_ascii c in
  if (48 <=? n)%N && (n <=? 57)%N then Some (n - 48)%N else None.

Definition hex_digit_value (c : ascii) : option N :=
  let n := N_of_ascii c in
  if (48 <=? n)%N && (n <=? 57)%N then Some (n - 48)%N
  else if (97 <=? n)%N && (n <=? 102)%N then Some (n - 87)%N
  else if (65 <=? n)%N && (n <=? 70)%N then Some (n - 55)%N
  else None.

Fixpoint parse_digits (base : N) (value : ascii -> option N) (s : string) (acc : N)
    : option N :=
  match s with
  | EmptyString => Some acc
  | String c rest =>
      match value c with
      | Some d => parse_digits base value rest (acc * base + d)%N
      | None => None
      end
  end.

(** A non-empty run of digits. *)
Definition parse_number (base : N) (value : ascii -> option N) (s : string)
    : option N :=
  match s with
  | EmptyString => None
  | _ => parse_digits base value s 0%N
  end.

Definition parse_core (s : string) : option CoreType :=
  if String.eqb s "classic-12bit" then Some classic_12bit
  else if String.eqb s "classic-14bit" then Some classic_14bit
  else if String.eqb s "enhanced-14bit" then Some enhanced_14bit
  else if String.eqb s "pic18" then Some pic18
  else None.

Definition parse_flag (s : string) : option bool :=
  if String.eqb s "1" then Some true
  else if String.eqb s "0" then Some false
  else None.

Definition decode (fields : list string) : option ChipInfoEntry :=
  match fields with
  | [name; rom; eeprom; id; core; flash; icsp] =>
      rom ← parse_number 10 digit_value rom;
      eeprom ← parse_number 10 digit_value eeprom;
      id ← parse_number 16 hex_digit_value id;
      core ← parse_core core;
      flash ← parse_flag flash;
      icsp ← parse_flag icsp;
      Some {| chip_name := name; rom_size := rom; eeprom_size := eeprom;
              chip_id := Z.of_N id; core_type := core; flash_chip := flash;
              icsp_only := icsp |}
  | _ => None
  end.

(** The record of the PIC16F887 in this layout, and one of the PIC16C54. *)
Definition record_16f887 : list string :=
  ["16f887"; "8192"; "256"; "20F0"; "enhanced-14bit"; "1"; "0"].

Definition record_16c54 : list string :=
  ["16c54"; "512"; "0"; "0"; "classic-12bit"; "0"; "0"].

End DelimitedLayout.

(** ** What the scripts call but do not contain *)

(** The file system, the [picpro] library and the programmer behind it, as
    one run of a script meets them.  Every call of a script into them occurs
    at most once per run, so its outcome is a field. *)
Record Lib : Type := {
  (** [Path(__file__).parent] *)
  file_parent : Py.Path;
  (** [path.exists()] *)
  path_exists : Py.Path -> bool;
  (** [ChipInfoReader(path)]: the catalog, or the exception raised *)
  chip_info_reader : Py.Path -> Py.exn + gmap string ChipInfoEntry;
  (** [Connection(port)] and its [__enter__] / [__exit__] *)
  connection_init : string -> Py.exn + unit;
  connection_enter : Py.exn + unit;
  connection_exit : option Py.exn -> Ctl.exit_outcome;
  (** [connection.get_programming_interface(chip_info, icsp_mode=...)] and
      the [__enter__] / [__exit__] of what it returns *)
  get_programming_interface : ChipInfoEntry -> bool -> Py.exn + unit;
  interface_enter : Py.exn + unit;
  interface_exit : option Py.exn -> Ctl.exit_outcome;
  (** [prog_interface.read_config()] and [prog_interface.read_device_id()] *)
  read_config : Py.exn + list byte;
  read_device_id : Py.exn + Z
}.

Definition succeeded {A} (outcome : Py.exn + A) : bool :=
  match outcome with
  | inl _ => false
  | inr _ => true
  end.

(** The same run with another outcome of [read_device_id()]. *)
Definition with_device_id (L : Lib) (outcome : Py.exn + Z) : Lib :=
  {| file_parent := file_parent L;
     path_exists := path_exists L;
     chip_info_reader := chip_info_reader L;
     connection_init := connection_init L;
     connection_enter := connection_enter L;
     connection_exit := connection_exit L;
     get_programming_interface := get_programming_interface L;
     interface_enter := interface_enter L;
     interface_exit := interface_exit L;
     read_config := read_config L;
     read_device_id := outcome |}.

(** Counting the events of a kind in a trace. *)
Fixpoint count (f : event -> bool) (tr : list event) : nat :=
  match tr with
  | [] => 0
  | ev :: rest => (if f ev then 1 else 0) + count f rest
  end.

(** Leaving program mode is the [__exit__] of the programming interface,
    releasing the link the [__exit__] of the connection; a session is
    established by the [__enter__] that returned. *)
Definition is_interface_exit (ev : event) : bool :=
  match ev with InterfaceExit _ => true | _ => false end.

Definition is_connection_exit (ev : event) : bool :=
  match ev with ConnectionExit _ => true | _ => false end.

Definition is_interface_entered (ev : event) : bool :=
  match ev with InterfaceEnter true => true | _ => false end.

Definition is_connection_entered (ev : event) : bool :=
  match ev with ConnectionEnter true => true | _ => false end.

Definition is_scope_event (ev : event) : bool :=
  match ev with
  | ConnectionEnter _ | ConnectionExit _ | InterfaceEnter _ | InterfaceExit _ => true
  | _ => false
  end.

Definition is_print (ev : event) : bool :=
  match ev with Print _ => true | _ => false end.

(** What a run does outside the console. *)
Definition calls (tr : list event) : list event :=
  List.filter (fun ev => negb (is_print ev)) tr.

#[global] Arguments calls : simpl never.

(** The exception in flight that a completion passes to [__exit__]. *)
Definition in_flight {R A} (c : Ctl.completion R A) : option Py.exn :=
  match c with
  | Ctl.Raise e => Some e
  | _ => None
  end.

(** Every scope that was entered has been left, once: the trace has as many
    exits as successful entries, for the programming interface and for the
    connection, and at most [ni] and [nc] of them. *)
Definition scoped (ni nc : nat) (tr : list event) : Prop :=
  count is_interface_exit tr = count is_interface_entered tr
  /\ count is_connection_exit tr = count is_connection_entered tr
  /\ (count is_interface_entered tr <= ni)%nat
  /\ (count is_connection_entered tr <= nc)%nat.

(** Two runs that differ on the console at most: the same calls, in the same
    order, and the same completion. *)
Definition same_run {R A} (m1 m2 : Ctl.M R A) : Prop :=
  calls m1.1 = calls m2.1 /\ m1.2 = m2.2.

(** [reader.get_chip(name)]: the catalog lookup; an unknown chip is an
    exception to the caller. *)
Definition get_chip {R} (reader : gmap string ChipInfoEntry) (name : string)
    : Ctl.M R ChipInfoEntry :=
  Ctl.call (GetChip name)
    (match ChipCatalog.lookup reader name with
     | inr p => inr p
     | inl ChipCatalog.UnknownChip => inl (Py.OtherException "UnknownChip" name)
     end).

(** [with Connection(port) as connection: body] *)
Definition with_connection {R} (L : Lib) (port : string)
    (body : unit -> Ctl.M R unit) : Ctl.M R unit :=
  Ctl.with_ (Ctl.call (ConnectionInit port) (connection_init L port))
    (fun _ => Ctl.call (ConnectionEnter (succeeded (connection_enter L)))
                (connection_enter L))
    (fun _ e => ([ConnectionExit e], connection_exit L e))
    body.

(** [with connection.get_programming_interface(chip_info, icsp_mode=icsp)
    as prog_interface: body] *)
Definition with_programming_interface {R} (L : Lib) (chip_info : ChipInfoEntry)
    (icsp : bool) (body : unit -> Ctl.M R unit) : Ctl.M R unit :=
  Ctl.with_
    (Ctl.call (GetProgrammingInterface icsp)
       (get_programming_interface L chip_info icsp))
    (fun _ => Ctl.call (InterfaceEnter (succeeded (interface_enter L)))
                (interface_enter L))
    (fun _ e => ([InterfaceExit e], interface_exit L e))
    body.

Definition chipdata_rel : Py.Path :=
  {| Py.absolute := false; Py.parts := ["usr"; "share"; "picpro"; "chipdata.cid"] |}.

Definition chipdata_abs : Py.Path :=
  {| Py.absolute := true; Py.parts := ["usr"; "share"; "picpro"; "chipdata.cid"] |}.

Definition chipdata_cwd : Py.Path :=
  {| Py.absolute := false; Py.parts := ["chipdata.cid"] |}.

(** A run for examples: the catalog is found under [/usr/share], the
    programmer answers, and the core does not implement the device-ID read. *)
Definition profile_16f887 : ChipInfoEntry :=
  {| chip_name := "16f887"; rom_size := 8192; eeprom_size := 256; chip_id := 0x20F0;
     core_type := enhanced_14bit; flash_chip := true; icsp_only := false |}.

Definition bench (config : Py.exn + list byte) : Lib :=
  {| file_parent := {| Py.absolute := true; Py.parts := ["opt"; "picpro"] |};
     path_exists := fun p => bool_decide (p = chipdata_abs \/ p = chipdata_rel);
     chip_info_reader := fun _ => inr {[ "16f887" := profile_16f887 ]};
     connection_init := fun _ => inr tt;
     connection_enter := inr tt;
     connection_exit := fun _ => Ctl.ExitReturn false;
     get_programming_interface := fun _ _ => inr tt;
     interface_enter := inr tt;
     interface_exit := fun _ => Ctl.ExitReturn false;
     read_config := config;
     read_device_id := inl (Py.OtherException "DeviceIdUnsupported" "not implemented") |}.

(** A run in which no candidate file exists and the programmer is absent. *)
Definition bare_machine : Lib :=
  {| file_parent := {| Py.absolute := true; Py.parts := ["opt"; "picpro"] |};
     path_exists := fun _ => false;
     chip_info_reader := fun _ => inl (Py.FileNotFoundError "No such file or directory");
     connection_init := fun _ => inl (Py.OtherException "SerialException" "could not open port");
     connection_enter := inr tt;
     connection_exit := fun _ => Ctl.ExitReturn false;
     get_programming_interface := fun _ _ => inr tt;
     interface_enter := inr tt;
     interface_exit := fun _ => Ctl.ExitReturn false;
     read_config := inr [];
     read_device_id := inr 0 |}.

(** ** list_chips.py *)

Module list_chips.

Definition possible_paths (L : Lib) : list Py.Path :=
  [ Py.truediv (file_parent L) chipdata_rel; chipdata_abs; chipdata_cwd ].

(** [for path in paths: if path.exists(): return path] followed by the
    [raise] after the loop; the value is what the call evaluates to. *)
Fixpoint search {R} (L : Lib) (paths : list Py.Path) : Ctl.M R Py.Path :=
  match paths with
  | [] => Ctl.raise (Py.FileNotFoundError "chipdata.cid file not found")
  | path :: rest =>
      found ← Ctl.call (PathExists path) (inr (path_exists L path));
      if (found : bool) then mret path else search L rest
  end.

Definition find_chip_data {R} (L : Lib) : Ctl.M R Py.Path :=
  search L (possible_paths L).

(** [for chip in chips: print(chip)] *)
Fixpoint print_all {R} (chips : list string) : Ctl.M R unit :=
  match chips with
  | [] => mret tt
  | chip :: rest => Ctl.print chip;; print_all rest
  end.

(** ['8' in chip] *)
Fixpoint contains_8 (chip : string) : bool :=
  match chip with
  | EmptyString => false
  | String c rest => Ascii.eqb c "8"%char || contains_8 rest
  end.

Definition main (L : Lib) : Ctl.M Z unit :=
  Ctl.try_except
    (chip_data_path ← find_chip_data L;
     Ctl.print ("Reading chip data from: " +:+ Py.str_path chip_data_path);;
     reader ← Ctl.call (ReaderInit chip_data_path) (chip_info_reader L chip_data_path);
     let chip_names := ChipCatalog.sorted (ChipCatalog.keys reader) in
     Ctl.print (Py.nl +:+ "Found " +:+ Py.str_int (Z.of_nat (length chip_names))
                  +:+ " supported PIC chips:");;
     Ctl.print (Py.repeat_str "=" 50);;
     print_all chip_names;;
     Ctl.print (Py.nl +:+ "16F series chips containing '8':");;
     Ctl.print (Py.repeat_str "-" 30);;
     print_all (filter (fun chip => String.prefix "16f" chip && contains_8 chip = true)
                  chip_names))
    (fun e =>
       if Py.is_Exception e
       then Some (Ctl.print ("Error: " +:+ Py.str_exn e);; Ctl.return_ 1)
       else None);;
  Ctl.return_ 0.

End list_chips.

(** ** test_16f887_zif.py *)

Module test_16f887_zif.

(** The script carries its own copy of [find_chip_data], the same text as
    in [list_chips.py]. *)
Definition possible_paths (L : Lib) : list Py.Path :=
  [ Py.truediv (file_parent L) chipdata_rel; chipdata_abs; chipdata_cwd ].

Fixpoint search {R} (L : Lib) (paths : list Py.Path) : Ctl.M R Py.Path :=
  match paths with
  | [] => Ctl.raise (Py.FileNotFoundError "chipdata.cid file not found")
  | path :: rest =>
      found ← Ctl.call (PathExists path) (inr (path_exists L path));
      if (found : bool) then mret path else search L rest
  end.

Definition find_chip_data {R} (L : Lib) : Ctl.M R Py.Path :=
  search L (possible_paths L).

Definition str_core_type (c : CoreType) : string :=
  match c with
  | classic_12bit => "classic-12bit"
  | classic_14bit => "classic-14bit"
  | enhanced_14bit => "enhanced-14bit"
  | pic18 => "pic18"
  end.

Definition test_chip_info (L : Lib) : Ctl.M (option ChipInfoEntry) unit :=
  Ctl.print "=== Chip Info Test ===";;
  Ctl.try_except
    (chip_data_path ← find_chip_data L;
     reader ← Ctl.call (ReaderInit chip_data_path) (chip_info_reader L chip_data_path);
     chip_info ← get_chip reader "16f887";
     Ctl.print ("✓ Chip Name: " +:+ chip_name chip_info);;
     Ctl.print ("✓ ROM Size: " +:+ Py.hex (Z.of_N (rom_size chip_info)) +:+ " ("
                  +:+ Py.str_int (Z.of_N (rom_size chip_info)) +:+ " bytes)");;
     Ctl.print ("✓ EEPROM Size: " +:+ Py.hex (Z.of_N (eeprom_size chip_info)) +:+ " ("
                  +:+ Py.str_int (Z.of_N (eeprom_size chip_info)) +:+ " bytes)");;
     Ctl.print ("✓ Chip ID: " +:+ Py.hex (chip_id chip_info));;
     Ctl.print ("✓ Core Type: " +:+ str_core_type (core_type chip_info));;
     Ctl.print ("✓ Flash Chip: " +:+ Py.str_bool (flash_chip chip_info));;
     Ctl.print ("✓ ICSP Only: " +:+ Py.str_bool (icsp_only chip_info));;
     Ctl.return_ (Some chip_info))
    (fun e =>
       if Py.is_Exception e
       then Some (Ctl.print ("✗ Chip info test failed: " +:+ Py.str_exn e);;
                  Ctl.return_ None)
       else None).

Definition test_chip_detection (L : Lib) (port : string) (icsp_mode : bool)
    : Ctl.M bool unit :=
  Ctl.print (Py.nl +:+ "=== Chip Detection Test (ICSP: " +:+ Py.str_bool icsp_mode
               +:+ ") ===");;
  Ctl.try_except
    (chip_data_path ← find_chip_data L;
     reader ← Ctl.call (ReaderInit chip_data_path) (chip_info_reader L chip_data_path);
     chip_info ← get_chip reader "16f887";
     with_connection L port (fun connection =>
       Ctl.print "✓ Initializing programming interface...";;
       with_programming_interface L chip_info icsp_mode (fun prog_interface =>
         Ctl.print "✓ Programming interface initialized";;
         Ctl.print "✓ Attempting to read chip configuration...";;
         chip_config ← Ctl.call ReadConfig (read_config L);
         Ctl.print "✓ Chip configuration read successfully";;
         Ctl.print ("  Config data length: "
                      +:+ Py.str_int (Z.of_nat (length (chip_config : list byte)))
                      +:+ " bytes");;
         Ctl.try_except
           (device_id ← Ctl.call ReadDeviceId (read_device_id L);
            Ctl.print ("✓ Device ID: " +:+ Py.hex device_id))
           (fun _ => Some (Ctl.print "  (Device ID read not supported or failed)"));;
         Ctl.return_ true)))
    (fun e =>
       if Py.is_Exception e
       then Some (Ctl.print ("✗ Chip detection failed: " +:+ Py.str_exn e);;
                  Ctl.return_ false)
       else None).

(** [test_connection]: the connection is opened, announced, returned from
    inside its [with] block, and so closed on the way out. *)
Definition test_connection (L : Lib) (port : string) : Ctl.M (option unit) unit :=
  Ctl.print (Py.nl +:+ "=== Connection Test (Port: " +:+ port +:+ ") ===");;
  Ctl.try_except
    (with_connection L port (fun connection =>
       Ctl.print "✓ Connection established successfully";;
       Ctl.print ("✓ Programmer connected on " +:+ port);;
       Ctl.return_ (Some connection)))
    (fun e =>
       if Py.is_Exception e
       then Some (Ctl.print ("✗ Connection failed: " +:+ Py.str_exn e);;
                  Ctl.return_ None)
       else None).

(** The parsed command line of the script. *)
Record Args : Type := {
  port : string;
  icsp : bool;
  skip_hardware : bool
}.

(** [bool(x)] for what a test returned: [None] is false; for an object of
    the library it is what the object says ([object_true]), which the script
    cannot see. *)
Definition truthy {A} (object_true : bool) (x : option (option A)) : bool :=
  match x with
  | Some (Some _) => object_true
  | _ => false
  end.

(** [main] after argument parsing.  Each of the three tests meets the
    library anew ([L_info], [L_conn], [L_detect]); [chip_info_true] and
    [connection_true] are [bool(chip_info)] and [bool(connection)]. *)
Definition main (L_info L_conn L_detect : Lib) (args : Args)
    (chip_info_true connection_true : bool) : Ctl.M Z unit :=
  Ctl.print "PIC16F887 ZIF Socket Test";;
  Ctl.print (Py.repeat_str "=" 40);;
  chip_info ← call_def (test_chip_info L_info);
  if negb (truthy chip_info_true chip_info) then Ctl.return_ 1
  else if skip_hardware args then
    Ctl.print (Py.nl +:+ "✓ Hardware tests skipped (--skip-hardware)");;
    Ctl.return_ 0
  else
    Ctl.print (Py.nl +:+ "Testing connection to programmer on " +:+ port args +:+ "...");;
    connection ← call_def (test_connection L_conn (port args));
    if negb (truthy connection_true connection) then
      Ctl.print (Py.nl +:+ "⚠ Connection failed. Check:");;
      Ctl.print "  - Programmer is connected";;
      Ctl.print "  - Correct port specified";;
      Ctl.print "  - User has permissions to access port";;
      Ctl.return_ 1
    else
      success ← call_def (test_chip_detection L_detect (port args) (icsp args));
      let success := bool_decide (success = Some true) in
      (if success then
         Ctl.print (Py.nl +:+ "🎉 All tests passed! PIC16F887 is working on ZIF socket");;
         Ctl.print (Py.nl +:+ "Next steps:");;
         Ctl.print "  - Try programming a hex file";;
         Ctl.print "  - Test reading/writing EEPROM";;
         Ctl.print "  - Verify fuse settings"
       else
         Ctl.print (Py.nl +:+ "❌ Chip detection failed. Check:");;
         Ctl.print "  - PIC16F887 is properly seated in ZIF socket";;
         Ctl.print "  - ZIF socket connections are good";;
         Ctl.print "  - Power supply is stable";;
         Ctl.print "  - Chip is not damaged");;
      Ctl.return_ (if success then 0 else 1).

End test_16f887_zif.

(** ** test_zif_hardware.py *)

Module test_zif_hardware.

Definition test_hardware_connection (L : Lib) (port : string) : Ctl.M bool unit :=
  Ctl.print ("🔌 Testing hardware connection on " +:+ port);;
  Ctl.print "📋 Make sure:";;
  Ctl.print "   - PIC16F887 is inserted in ZIF socket";;
  Ctl.print "   - ZIF socket is closed properly";;
  Ctl.print "   - Programmer is connected to USB";;
  Ctl.print "   - Power is supplied to the circuit";;
  Ctl.print "";;
  Ctl.try_except
    (let chip_data_path := chipdata_rel in
     reader ← Ctl.call (ReaderInit chip_data_path) (chip_info_reader L chip_data_path);
     chip_info ← get_chip reader "16f887";
     Ctl.print ("✓ Loaded chip info for " +:+ chip_name chip_info);;
     with_connection L port (fun connection =>
       Ctl.print ("✓ Connected to programmer on " +:+ port);;
       with_programming_interface L chip_info false (fun prog_interface =>
         Ctl.print "✓ Programming interface initialized";;
         Ctl.print "📖 Reading chip configuration...";;
         config ← Ctl.call ReadConfig (read_config L);
         Ctl.print "✓ Configuration read successfully";;
         Ctl.try_except
           (device_id ← Ctl.call ReadDeviceId (read_device_id L);
            Ctl.print ("✓ Device ID: " +:+ Py.hex device_id);;
            if bool_decide (device_id = chip_id chip_info)
            then Ctl.print "🎉 Device ID matches! PIC16F887 detected correctly"
            else Ctl.print ("⚠ Device ID mismatch. Expected: "
                              +:+ Py.hex (chip_id chip_info) +:+ ", Got: "
                              +:+ Py.hex device_id))
           (fun e =>
              if Py.is_Exception e
              then Some (Ctl.print ("ℹ Device ID read failed (may be normal): "
                                      +:+ Py.str_exn e))
              else None);;
         Ctl.print (Py.nl +:+ "🎯 ZIF socket test successful!");;
         Ctl.print "✅ PIC16F887 is properly connected and communicating";;
         Ctl.return_ true)))
    (fun e =>
       if Py.is_FileNotFoundError e then
         Some (Ctl.print ("❌ File not found: " +:+ Py.str_exn e);;
               Ctl.print "Make sure you're running from the picpro directory";;
               Ctl.return_ false)
       else if Py.is_Exception e then
         Some (Ctl.print ("❌ Hardware test failed: " +:+ Py.str_exn e);;
               Ctl.print (Py.nl +:+ "🔧 Troubleshooting:");;
               Ctl.print "   - Check USB connection";;
               Ctl.print "   - Verify port name (try ls /dev/tty*)";;
               Ctl.print "   - Ensure chip is seated properly in ZIF socket";;
               Ctl.print "   - Check power supply connections";;
               Ctl.print "   - Try different USB port";;
               Ctl.return_ false)
       else None).

(** The [__main__] block: the port is the first argument when there is one;
    the completion is the code given to [sys.exit]. *)
Definition script (L : Lib) (argv : list string) : Ctl.M Z unit :=
  let port := if (1 <? length argv)%nat then default EmptyString (argv !! 1%nat)
              else "/dev/ttyUSB0" in
  success ← call_def (test_hardware_connection L port);
  Ctl.return_ (if bool_decide (success = Some true) then 0 else 1).

End test_zif_hardware.

(** ** The programming session (the [picpro.protocol] package) *)

Module ProgrammingSession.

Inductive ProgramState : Type :=
| Disconnected
| Connected
| ProgramModeEntered
| Reading
| Writing
| Erasing.

#[global] Instance ProgramState_eq_dec : EqDecision ProgramState.
Proof. solve_decision. Defined.

(** The sub-states entered around a single operation. *)
Definition transient (st : ProgramState) : bool :=
  match st with
  | Reading | Writing | Erasing => true
  | _ => false
  end.

Inductive LinkError : Type := OpenFailed | Timeout | ShortRead | Busy.

Inductive SessionError : Type :=
| InvalidState
| ModeEntryFailed
| UnsupportedMode
| SizeMismatch
| ReadTruncated
| ChecksumMismatch
| VerifyFailed
| EraseVerifyFailed
| DeviceIdUnsupported
| DeviceUnresponsive.

Inductive Error : Type :=
| OfSession (e : SessionError)
| OfLink (e : LinkError).

Inductive Region : Type := Rom | Eeprom.

(** The requests a session puts on the link. *)
Inductive Command : Type :=
| Handshake
| EnterMode (core : CoreType) (icsp : bool)
| ReadBlock (r : Region) (offset len : nat)
| WriteBlock (r : Region) (offset : nat) (data : list byte)
| BulkErase
| ExitMode.

(** Modelled from the spec: a [TransportLink] as a fake transport, which
    keeps every request sent over it and answers from the device behind
    it; an answer is the bytes received or a [LinkError]. *)
Record TransportLink : Type := {
  sent : list Command;
  device : list Command -> Command -> LinkError + list byte
}.

(** One request/response exchange: [send] followed by [receive]. *)
Definition exchange (l : TransportLink) (c : Command)
    : (LinkError + list byte) * TransportLink :=
  (device l (sent l) c, {| sent := sent l ++ [c]; device := device l |}).

(** Modelled from the spec: a [ProgrammingSession] holds its link, the
    profile it was created for and its [ProgramState]; [history] lists the
    states it has been in, oldest first. *)
Record Session : Type := {
  link : TransportLink;
  profile : ChipInfoEntry;
  state : ProgramState;
  history : list ProgramState
}.

Definition new_session (l : TransportLink) (p : ChipInfoEntry) : Session :=
  {| link := l; profile := p; state := Disconnected; history := [Disconnected] |}.

Definition set_state (st : ProgramState) (s : Session) : Session :=
  {| link := link s; profile := profile s; state := st;
     history := history s ++ [st] |}.

Definition set_link (l : TransportLink) (s : Session) : Session :=
  {| link := l; profile := profile s; state := state s; history := history s |}.

Definition region_size (p : ChipInfoEntry) (r : Region) : nat :=
  match r with
  | Rom => N.to_nat (rom_size p)
  | Eeprom => N.to_nat (eeprom_size p)
  end.

Section Blocks.

(** The size of the blocks a region is read and written in. *)
Context (block_size : positive).

(** The [(offset, length)] of the blocks that cover [remaining] bytes
    from [offset] on. *)
Fixpoint block_ranges (fuel offset remaining : nat) : list (nat * nat) :=
  match fuel with
  | O => []
  | S fuel' =>
      if (remaining =? 0)%nat then []
      else
        let len := Nat.min (Pos.to_nat block_size) remaining in
        (offset, len) :: block_ranges fuel' (offset + len) (remaining - len)
  end.

Definition blocks_of (size : nat) : list (nat * nat) :=
  block_ranges size 0 size.

(** Repeated block reads; a block that comes back short is
    [ReadTruncated]. *)
Fixpoint read_blocks (l : TransportLink) (r : Region) (ranges : list (nat * nat))
    : (Error + list byte) * TransportLink :=
  match ranges with
  | [] => (inr [], l)
  | (offset, len) :: rest =>
      match exchange l (ReadBlock r offset len) with
      | (inl e, l') => (inl (OfLink e), l')
      | (inr bytes, l') =>
          if (length bytes <? len)%nat then (inl (OfSession ReadTruncated), l')
          else
            match read_blocks l' r rest with
            | (inl e, l'') => (inl e, l'')
            | (inr more, l'') => (inr (take len bytes ++ more), l'')
            end
      end
  end.

(** Block writes, each followed by a verify-read; the first mismatch is
    [VerifyFailed] and the remaining blocks are not written. *)
Fixpoint write_blocks (l : TransportLink) (r : Region) (data : list byte)
    (ranges : list (nat * nat)) : (Error + unit) * TransportLink :=
  match ranges with
  | [] => (inr tt, l)
  | (offset, len) :: rest =>
      let chunk := take len (drop offset data) in
      match exchange l (WriteBlock r offset chunk) with
      | (inl e, l1) => (inl (OfLink e), l1)
      | (inr _, l1) =>
          match exchange l1 (ReadBlock r offset len) with
          | (inl e, l2) => (inl (OfLink e), l2)
          | (inr back, l2) =>
              if bool_decide (back = chunk) then write_blocks l2 r data rest
              else (inl (OfSession VerifyFailed), l2)
          end
      end
  end.

(** Modelled from the spec: [read_rom()] / [read_eeprom()],
    ProgramModeEntered → Reading → ProgramModeEntered. *)
Definition read_region (r : Region) (s : Session) : (Error + list byte) * Session :=
  match state s with
  | ProgramModeEntered =>
      let s1 := set_state Reading s in
      let '(res, l') := read_blocks (link s1) r (blocks_of (region_size (profile s) r)) in
      (res, set_state ProgramModeEntered (set_link l' s1))
  | _ => (inl (OfSession InvalidState), s)
  end.

Definition read_rom : Session -> (Error + list byte) * Session := read_region Rom.
Definition read_eeprom : Session -> (Error + list byte) * Session := read_region Eeprom.

(** Modelled from the spec: [write_rom(bytes)] / [write_eeprom(bytes)],
    ProgramModeEntered → Writing → ProgramModeEntered; the length of the
    input is checked against the profile before the first block. *)
Definition write_region (r : Region) (data : list byte) (s : Session)
    : (Error + unit) * Session :=
  match state s with
  | ProgramModeEntered =>
      if bool_decide (length data = region_size (profile s) r) then
        let s1 := set_state Writing s in
        let '(res, l') := write_blocks (link s1) r data (blocks_of (length data)) in
        (res, set_state ProgramModeEntered (set_link l' s1))
      else (inl (OfSession SizeMismatch), s)
  | _ => (inl (OfSession InvalidState), s)
  end.

Definition write_rom : list byte -> Session -> (Error + unit) * Session :=
  write_region Rom.
Definition write_eeprom : list byte -> Session -> (Error + unit) * Session :=
  write_region Eeprom.

(** Modelled from the spec: [erase()], ProgramModeEntered → Erasing →
    ProgramModeEntered: the bulk-erase command, then a read-back of the
    ROM region that must be all ones. *)
Definition erase (s : Session) : (Error + unit) * Session :=
  match state s with
  | ProgramModeEntered =>
      let s1 := set_state Erasing s in
      let '(res, l') :=
        match exchange (link s1) BulkErase with
        | (inl e, l1) => (inl (OfLink e), l1)
        | (inr _, l1) =>
            match read_blocks l1 Rom (blocks_of (region_size (profile s) Rom)) with
            | (inl e, l2) => (inl e, l2)
            | (inr bytes, l2) =>
                if forallb (Byte.eqb xff) bytes then (inr tt, l2)
                else (inl (OfSession EraseVerifyFailed), l2)
            end
        end in
      (res, set_state ProgramModeEntered (set_link l' s1))
  | _ => (inl (OfSession InvalidState), s)
  end.

End Blocks.

(** Modelled from the spec: [connect], Disconnected → Connected after a
    handshake; no answer is [DeviceUnresponsive] and the session stays
    Disconnected. *)
Definition connect (s : Session) : (Error + unit) * Session :=
  match state s with
  | Disconnected =>
      match exchange (link s) Handshake with
      | (inl _, l') => (inl (OfSession DeviceUnresponsive), set_link l' s)
      | (inr _, l') => (inr tt, set_state Connected (set_link l' s))
      end
  | _ => (inl (OfSession InvalidState), s)
  end.

(** Modelled from the spec: [enter_program_mode(icsp)], Connected →
    ProgramModeEntered.  The mode is checked against the profile before
    any command is issued: a profile that is ICSP-only cannot be entered
    in the non-ICSP mode. *)
Definition enter_program_mode (icsp : bool) (s : Session) : (Error + unit) * Session :=
  match state s with
  | Connected =>
      if icsp_only (profile s) && negb icsp
      then (inl (OfSession UnsupportedMode), s)
      else
        match exchange (link s) (EnterMode (core_type (profile s)) icsp) with
        | (inl _, l') => (inl (OfSession ModeEntryFailed), set_link l' s)
        | (inr _, l') => (inr tt, set_state ProgramModeEntered (set_link l' s))
        end
  | _ => (inl (OfSession InvalidState), s)
  end.

(** Modelled from the spec: [exit_program_mode()], ProgramModeEntered →
    Connected. *)
Definition exit_program_mode (s : Session) : (Error + unit) * Session :=
  match state s with
  | ProgramModeEntered =>
      match exchange (link s) ExitMode with
      | (inl e, l') => (inl (OfLink e), set_state Connected (set_link l' s))
      | (inr _, l') => (inr tt, set_state Connected (set_link l' s))
      end
  | _ => (inl (OfSession InvalidState), s)
  end.

(** Modelled from the spec: [disconnect()], Connected → Disconnected. *)
Definition disconnect (s : Session) : (Error + unit) * Session :=
  match state s with
  | Connected => (inr tt, set_state Disconnected s)
  | _ => (inl (OfSession InvalidState), s)
  end.

(** The operations of a session, to speak of sequences of them. *)
Inductive Op : Type :=
| OpConnect
| OpEnterProgramMode (icsp : bool)
| OpReadRom
| OpReadEeprom
| OpWriteRom (data : list byte)
| OpWriteEeprom (data : list byte)
| OpErase
| OpExitProgramMode
| OpDisconnect.

Definition run_op (block_size : positive) (o : Op) (s : Session) : Session :=
  match o with
  | OpConnect => (connect s).2
  | OpEnterProgramMode icsp => (enter_program_mode icsp s).2
  | OpReadRom => (read_rom block_size s).2
  | OpReadEeprom => (read_eeprom block_size s).2
  | OpWriteRom data => (write_rom block_size data s).2
  | OpWriteEeprom data => (write_eeprom block_size data s).2
  | OpErase => (erase block_size s).2
  | OpExitProgramMode => (exit_program_mode s).2
  | OpDisconnect => (disconnect s).2
  end.

(** A sequence of operations; a failed operation leaves the session as it
    is described above and the next one is tried on it. *)
Definition run_ops (block_size : positive) (ops : list Op) (s : Session) : Session :=
  foldl (fun s o => run_op block_size o s) s ops.

(** Every entry of a history into a transient state comes right after
    [ProgramModeEntered]. *)
Fixpoint entered_from_program_mode (prev : ProgramState) (h : list ProgramState) : bool :=
  match h with
  | [] => true
  | st :: rest =>
      (if transient st then bool_decide (prev = ProgramModeEntered) else true)
      && entered_from_program_mode st rest
  end.


#[global] Instance Region_eq_dec : EqDecision Region.
Proof. solve_decision. Defined.

(** A fake device for running sessions: it acknowledges every request, and
    answers a block read with what was last written to that block, or with
    ones where nothing was written. *)
Fixpoint last_written (r : Region) (offset : nat) (log : list Command)
    : option (list byte) :=
  match log with
  | [] => None
  | c :: rest =>
      match last_written r offset rest with
      | Some data => Some data
      | None =>
          match c with
          | WriteBlock r' offset' data =>
              if bool_decide (r' = r) && (offset' =? offset)%nat then Some data else None
          | _ => None
          end
      end
  end.

Definition echo_device (log : list Command) (c : Command) : LinkError + list byte :=
  match c with
  | ReadBlock r offset len =>
      inr (default (replicate len xff) (last_written r offset log))
  | _ => inr []
  end.

(** A device that does not answer. *)
Definition dead_device (log : list Command) (c : Command) : LinkError + list byte :=
  inl Timeout.

(** A profile with a ROM of sixteen bytes, for short runs. *)
Definition small_profile : ChipInfoEntry :=
  {| chip_name := "16f887"; rom_size := 16; eeprom_size := 4; chip_id := 0x20F0;
     core_type := enhanced_14bit; flash_chip := true; icsp_only := false |}.

Definition fresh (dev : list Command -> Command -> LinkError + list byte) : Session :=
  new_session {| sent := []; device := dev |} small_profile.

(** What holds of a session between operations. *)
Definition settled (s : Session) : Prop :=
  last (history s) = Some (state s)
  /\ transient (state s) = false
  /\ entered_from_program_mode Disconnected (history s) = true.

End ProgrammingSession.

(** * Properties *)

Example hex_20f0 : Py.hex 8432 = "0x20f0".
Proof. reflexivity. Qed.

Example str_8192 : Py.str_int 8192 = "8192".
Proof. reflexivity. Qed.

Example upper_16f887 : Py.upper "16f887" = "16F887".
Proof. reflexivity. Qed.

(** ** Locating the catalog file *)

Section FindChipData.

Context {R : Type} (L : Lib).

(** The loop over the candidates stops at the first one that exists, having
    asked about it and the ones before it, and about nothing else. *)
Lemma list_chips_search_spec (paths : list Py.Path) :
  list_chips.search (R:=R) L paths =
    match list_find (fun p => path_exists L p = true) paths with
    | Some (i, p) => (PathExists <$> take (S i) paths, Ctl.Normal p)
    | None => (PathExists <$> paths,
               Ctl.Raise (Py.FileNotFoundError "chipdata.cid file not found"))
    end.
Proof.
  induction paths as [|p rest IH]; [reflexivity|].
  cbn [list_chips.search list_find].
  unfold mbind, Ctl_bind, Ctl.bind, Ctl.call.
  destruct (path_exists L p) eqn:Hp.
  - rewrite decide_True by reflexivity. reflexivity.
  - rewrite decide_False by discriminate.
    rewrite IH. destruct (list_find _ rest) as [[i q]|]; reflexivity.
Qed.

Lemma zif_search_eq (paths : list Py.Path) :
  test_16f887_zif.search (R:=R) L paths = list_chips.search L paths.
Proof. induction paths as [|p rest IH]; [reflexivity|]. cbn. now rewrite IH. Qed.

End FindChipData.

(** C10: [find_chip_data] (in [list_chips.py] and, with the same text, in
    [test_16f887_zif.py]) has exactly three candidates, in this order: the
    script-relative [usr/share/picpro/chipdata.cid], then
    [/usr/share/picpro/chipdata.cid], then [chipdata.cid] in the working
    directory.  It returns the first candidate that exists, asking about no
    candidate after it, and raises [FileNotFoundError] when none of the
    three exists. *)
Theorem find_chip_data_first_of_three {R : Type} (L : Lib) :
  let paths :=
    [ Py.truediv (file_parent L)
        {| Py.absolute := false; Py.parts := ["usr"; "share"; "picpro"; "chipdata.cid"] |};
      {| Py.absolute := true; Py.parts := ["usr"; "share"; "picpro"; "chipdata.cid"] |};
      {| Py.absolute := false; Py.parts := ["chipdata.cid"] |} ] in
  let found :=
    match list_find (fun p => path_exists L p = true) paths with
    | Some (i, p) => (PathExists <$> take (S i) paths, Ctl.Normal (R:=R) p)
    | None => (PathExists <$> paths,
               Ctl.Raise (Py.FileNotFoundError "chipdata.cid file not found"))
    end in
  list_chips.possible_paths L = paths
  /\ test_16f887_zif.possible_paths L = paths
  /\ list_chips.find_chip_data L = found
  /\ test_16f887_zif.find_chip_data L = found.
Proof.
  intros paths found. repeat split; try reflexivity.
  - unfold list_chips.find_chip_data. now rewrite list_chips_search_spec.
  - unfold test_16f887_zif.find_chip_data.
    now rewrite zif_search_eq, list_chips_search_spec.
Qed.

(** ** The backup-and-erase script *)

Section BackupAndErase.

Import backup_and_erase.

Ltac run_main :=
  unfold main, backup_chip, erase_chip, input;
  unfold mbind, mret, Ctl_bind, Ctl_ret, Ctl.bind, Ctl.ret, Ctl.print,
    Ctl.return_, Ctl.call;
  cbn -[String.append Py.upper Py.lower Py.repeat_str String.eqb Py.nl
        backup_command erase_command].

Ltac unfold_strings :=
  cbv [erase_command backup_command Py.nl Py.repeat_str];
  cbn [String.append ascii_of_nat ascii_of_pos].

(** Two printed lines that differ in their fixed text. *)
Ltac differ := unfold_strings; intros Heq; discriminate Heq.

Ltac decide_events :=
  repeat first
    [ rewrite bool_decide_eq_true_2 by reflexivity
    | rewrite bool_decide_eq_false_2 by differ ].

Ltac step_main :=
  cbn -[String.append Py.upper Py.lower Py.repeat_str Py.nl backup_file
        backup_command erase_command].

(** C9: in the non-dry-run path, whenever the lower-cased answer is not
    ['y'], [main] ends with the cancellation message right after the
    prompt and returns 0, and no line of the run writes out the erase
    command: [erase_chip] is not called. *)
Theorem main_declined_cancels (args : Args) (timestamp response : string) :
  dry_run args = false ->
  Py.lower response <> "y" ->
  exists before,
    Ctl.run_def (main args timestamp (Some response))
      = (before ++ [Input "Continue? (y/N): "; Print "Operation cancelled."],
         inr (Some 0))
    /\ forallb (fun ev => negb (mentions_erase_command args ev))
         (before ++ [Input "Continue? (y/N): "; Print "Operation cancelled."])
       = true.
Proof.
  intros Hdry Hne. apply String.eqb_neq in Hne.
  run_main. rewrite Hdry, Hne. step_main.
  eexists (_ :: _ :: _ :: _ :: _ :: _ :: _ :: _ :: _ :: _ :: _ :: _ :: _ :: _ :: _ :: []).
  split; [reflexivity|].
  unfold mentions_erase_command. cbn [forallb app].
  decide_events. reflexivity.
Qed.

Lemma main_declined_cancels_witness :
  exists before,
    Ctl.run_def
      (main {| chip_type := "16f887"; port := "/dev/ttyUSB0";
               output := None; dry_run := false |}
         "20250101_120000" (Some "N"))
      = (before ++ [Input "Continue? (y/N): "; Print "Operation cancelled."],
         inr (Some 0))
    /\ forallb
         (fun ev =>
            negb (mentions_erase_command
                    {| chip_type := "16f887"; port := "/dev/ttyUSB0";
                       output := None; dry_run := false |} ev))
         (before ++ [Input "Continue? (y/N): "; Print "Operation cancelled."])
       = true.
Proof.
  apply (main_declined_cancels
           {| chip_type := "16f887"; port := "/dev/ttyUSB0";
              output := None; dry_run := false |}
           "20250101_120000" "N").
  - reflexivity.
  - vm_compute. discriminate.
Defined.


(** The answers that confirm are [y] and [Y]. *)
Lemma lower_ascii_is_y (c : ascii) :
  Py.lower_ascii c = "y"%char -> c = "y"%char \/ c = "Y"%char.
Proof.
  destruct c as [[] [] [] [] [] [] [] []]; cbv; intros H;
    first [discriminate H | by left | by right].
Qed.

Lemma confirms_iff (stdin : option string) :
  confirms stdin = true <-> stdin = Some "y" \/ stdin = Some "Y".
Proof.
  unfold confirms. split.
  - destruct stdin as [[|c [|c' r]]|]; try discriminate; cbn [Py.lower].
    + intros [= Hc]%String.eqb_eq. by destruct (lower_ascii_is_y c Hc) as [-> | ->]; [left|right].
    + intros H%String.eqb_eq. discriminate H.
  - by intros [-> | ->].
Qed.

(** ** More on the backup-and-erase script *)

(** X1: [main] returns no exit code but 0, and it returns 0 exactly when
    the run is a dry run or an answer is read at the prompt, a refusal and
    a confirmation alike. *)
Theorem main_exit_code (args : Args) (timestamp : string) (stdin : option string) :
  (forall z, (main args timestamp stdin).2 = Ctl.Return z -> z = 0)
  /\ ((main args timestamp stdin).2 = Ctl.Return 0 <->
      dry_run args = true \/ is_Some stdin).
Proof.
  run_main. destruct (dry_run args); step_main.
  - split; [by intros z [= <-]|]. split; [by left|done].
  - destruct stdin as [response|]; step_main.
    + destruct (String.eqb (Py.lower response) "y"); step_main;
        (split; [by intros z [= <-]|]; split; [by right; eexists|done]).
    + split; [discriminate|]. split; [discriminate|].
      intros [?|[? ?]]; discriminate.
Qed.

Lemma main_exit_code_witness :
  (main {| chip_type := "16f887"; port := "/dev/ttyUSB0"; output := None;
           dry_run := false |} "20250101_120000" (Some "n")).2 = Ctl.Return 0.
Proof.
  apply (main_exit_code {| chip_type := "16f887"; port := "/dev/ttyUSB0";
                           output := None; dry_run := false |}
           "20250101_120000" (Some "n")).
  right. by eexists.
Defined.

(** X2: the script never reaches the programmer.  Whatever the arguments
    and the answer, the only thing a run does besides printing is to read
    the answer at the prompt, once, and not at all in a dry run. *)
Theorem main_only_prompts (args : Args) (timestamp : string) (stdin : option string) :
  calls (main args timestamp stdin).1 =
    if dry_run args then [] else [Input "Continue? (y/N): "].
Proof.
  run_main. destruct (dry_run args); step_main; [reflexivity|].
  destruct stdin as [response|]; step_main; [|reflexivity].
  by destruct (String.eqb (Py.lower response) "y").
Qed.

(** X3: a dry run does not depend on standard input, and lists both
    commands it would run: the backup command as line 1 and the erase
    command as line 2, in this order. *)
Theorem dry_run_lists_commands (args : Args) (timestamp : string)
    (stdin : option string) :
  dry_run args = true ->
  main args timestamp stdin = main args timestamp None
  /\ exists tr1 tr2 tr3,
       (main args timestamp stdin).1
       = tr1
         ++ Print ("1. " +:+ backup_command (chip_type args) (port args)
                               (backup_file args timestamp)) :: tr2
         ++ Print ("2. " +:+ erase_command (chip_type args) (port args)) :: tr3.
Proof.
  intros Hdry. run_main. rewrite Hdry. step_main. split; [reflexivity|].
  eexists (_ :: _ :: _ :: _ :: _ :: _ :: _ :: _ :: _ :: _ :: _ :: _ :: []),
    (_ :: _ :: _ :: []), [].
  reflexivity.
Qed.

Lemma dry_run_lists_commands_witness :
  let args := {| chip_type := "16c54"; port := "/dev/ttyUSB0"; output := None;
                 dry_run := true |} in
  main args "20250101_120000" (Some "n") = main args "20250101_120000" None
  /\ In (Print "2. picpro erase --pic_type 16c54 --port /dev/ttyUSB0 --icsp")
        (main args "20250101_120000" (Some "n")).1.
Proof.
  intros args.
  destruct (dry_run_lists_commands args "20250101_120000" (Some "n") eq_refl)
    as [Hsame _].
  split; [exact Hsame|]. vm_compute. do 16 right. by left.
Defined.

(** X4: a backup file given with [--output] is used as it is, and the run
    then does not depend on the clock; without one (absent or empty) the
    file is [backup_<chip>_<timestamp>.hex], and it is this name that the
    announced backup command carries. *)
Theorem backup_file_choice (args : Args) (t1 t2 : string) (stdin : option string) :
  (output_missing (output args) = false ->
     Some (backup_file args t1) = output args
     /\ main args t1 stdin = main args t2 stdin)
  /\ (output_missing (output args) = true ->
        backup_file args t1 = "backup_" +:+ chip_type args +:+ "_" +:+ t1 +:+ ".hex")
  /\ In (Print ("🔧 Command: picpro read --pic_type " +:+ chip_type args
                   +:+ " --port " +:+ port args +:+ " --icsp rom --hex_file "
                   +:+ backup_file args t1))
        (main args t1 stdin).1.
Proof.
  split; [|split].
  - intros Hout.
    assert (Hfile : forall t, backup_file args t = default EmptyString (output args))
      by (intros t; unfold backup_file; by rewrite Hout).
    split.
    + rewrite Hfile. by destruct (output args) as [[|c o]|].
    + unfold main. by rewrite !Hfile.
  - intros Hout. unfold backup_file. by rewrite Hout.
  - run_main. destruct (dry_run args); step_main.
    + do 10 right. left. reflexivity.
    + destruct stdin as [response|]; step_main.
      * destruct (String.eqb (Py.lower response) "y"); step_main;
          do 10 right; left; reflexivity.
      * do 10 right. left. reflexivity.
Qed.

Lemma backup_file_choice_witness :
  let args := {| chip_type := "16f887"; port := "/dev/ttyUSB0";
                 output := Some "rom.hex"; dry_run := false |} in
  backup_file args "20250101_120000" = "rom.hex"
  /\ main args "20250101_120000" (Some "y") = main args "20260606_060606" (Some "y").
Proof.
  intros args.
  destruct (backup_file_choice args "20250101_120000" "20260606_060606" (Some "y"))
    as (Hgiven & _ & _).
  destruct (Hgiven eq_refl) as [Hfile Hsame].
  split; [by apply (inj Some)|exact Hsame].
Defined.

End BackupAndErase.

(** ** The chip catalog *)

Example decode_16f887 :
  DelimitedLayout.decode ["16f887"; "8192"; "256"; "20F0"; "enhanced-14bit"; "1"; "0"]
  = Some {| chip_name := "16f887"; rom_size := 8192; eeprom_size := 256;
            chip_id := 0x20F0; core_type := enhanced_14bit; flash_chip := true;
            icsp_only := false |}.
Proof. reflexivity. Qed.

Example decode_short_record :
  DelimitedLayout.decode ["16f887"; "8192"; "256"] = None.
Proof. reflexivity. Qed.

Example decode_bad_size :
  DelimitedLayout.decode ["16f887"; "8k"; "256"; "20F0"; "enhanced-14bit"; "1"; "0"] = None.
Proof. reflexivity. Qed.

Section Catalog.

Import ChipCatalog.

Context {Raw : Type} (decode : Raw -> option ChipInfoEntry).

Lemma load_records_app (pre post : list Raw) (cat : gmap string ChipInfoEntry) :
  load_records decode (pre ++ post) cat =
    match load_records decode pre cat with
    | inl e => inl e
    | inr cat1 => load_records decode post cat1
    end.
Proof.
  revert cat. induction pre as [|r pre IH]; intros cat; [reflexivity|].
  cbn. destruct (decode r) as [p|]; [|reflexivity].
  destruct (cat !! key_of p); [reflexivity|]. apply IH.
Qed.

Lemma record_keys_cons (r : Raw) (recs : list Raw) :
  record_keys decode (r :: recs) =
    match decode r with
    | Some p => key_of p :: record_keys decode recs
    | None => record_keys decode recs
    end.
Proof. unfold record_keys. cbn. by destruct (decode r). Qed.

(** What a successful load has established. *)
Lemma load_records_inr (recs : list Raw) (cat cat' : gmap string ChipInfoEntry) :
  load_records decode recs cat = inr cat' ->
  Forall (fun r => is_Some (decode r)) recs
  /\ NoDup (record_keys decode recs)
  /\ (forall k, k ∈ record_keys decode recs -> cat !! k = None)
  /\ (forall r p, r ∈ recs -> decode r = Some p -> cat' !! key_of p = Some p)
  /\ (forall k, k ∉ record_keys decode recs -> cat' !! k = cat !! k)
  /\ size cat' = (size cat + length recs)%nat.
Proof.
  revert cat. induction recs as [|r recs IH]; intros cat.
  - cbn. intros [= <-]. repeat split; try constructor; try done.
    all: try (intros ? Hk; by apply elem_of_nil in Hk).
    all: try (intros ? ? Hr; by apply elem_of_nil in Hr).
    all: lia.
  - cbn [load_records]. rewrite record_keys_cons.
    destruct (decode r) as [p|] eqn:Hdec; [|discriminate].
    destruct (cat !! key_of p) eqn:Hcat; [discriminate|].
    intros Hload. apply IH in Hload as (Hall & Hnd & Hfresh & Hin & Hout & Hsize).
    assert (Hnotin : key_of p ∉ record_keys decode recs).
    { intros Hk. apply Hfresh in Hk. by rewrite lookup_insert_eq in Hk. }
    repeat split.
    + constructor; [by eexists|done].
    + by constructor.
    + intros k [->|Hk]%elem_of_cons; [done|].
      specialize (Hfresh k Hk).
      destruct (decide (key_of p = k)) as [Heq|Hne].
      * subst k. by rewrite lookup_insert_eq in Hfresh.
      * by rewrite lookup_insert_ne in Hfresh.
    + intros r' p' [->|Hr']%elem_of_cons Hdec'.
      * assert (p' = p) as -> by congruence.
        rewrite Hout by done. apply lookup_insert_eq.
      * by eapply Hin.
    + intros k Hk. apply not_elem_of_cons in Hk as [Hne Hk].
      rewrite Hout by done. by apply lookup_insert_ne.
    + rewrite Hsize, map_size_insert_None by done. cbn [length]. lia.
Qed.

(** A file without a defect loads. *)
Lemma load_records_total (recs : list Raw) (cat : gmap string ChipInfoEntry) :
  Forall (fun r => is_Some (decode r)) recs ->
  NoDup (record_keys decode recs) ->
  (forall k, k ∈ record_keys decode recs -> cat !! k = None) ->
  exists cat', load_records decode recs cat = inr cat'.
Proof.
  revert cat. induction recs as [|r recs IH]; intros cat Hall Hnd Hfresh.
  - by eexists.
  - apply Forall_cons in Hall as [[p Hdec] Hall].
    rewrite record_keys_cons, Hdec in Hnd, Hfresh.
    apply NoDup_cons in Hnd as [Hnotin Hnd].
    cbn [load_records]. rewrite Hdec.
    rewrite (Hfresh (key_of p)) by (by left).
    apply IH; [done|done|].
    intros k Hk. rewrite lookup_insert_ne.
    + apply Hfresh. by right.
    + intros <-. done.
Qed.

End Catalog.

(** ** Lexicographic order on identifiers *)

Lemma string_compare_lt_trans (s1 s2 s3 : string) :
  String.compare s1 s2 = Lt -> String.compare s2 s3 = Lt -> String.compare s1 s3 = Lt.
Proof.
  revert s2 s3. induction s1 as [|c1 s1 IH]; intros [|c2 s2] [|c3 s3]; cbn;
    try discriminate; try reflexivity.
  unfold Ascii.compare.
  destruct (N.compare_spec (N_of_ascii c1) (N_of_ascii c2)) as [H12|H12|H12];
    try discriminate;
    destruct (N.compare_spec (N_of_ascii c2) (N_of_ascii c3)) as [H23|H23|H23];
    try discriminate; intros Ha Hb.
  - rewrite H12, H23, N.compare_refl. by eapply IH.
  - rewrite H12. by apply N.compare_lt_iff in H23 as ->.
  - rewrite <- H23. by apply N.compare_lt_iff in H12 as ->.
  - assert (N_of_ascii c1 < N_of_ascii c3)%N as Hlt by lia.
    by apply N.compare_lt_iff in Hlt as ->.
Qed.

#[global] Instance str_le_total : Total ChipCatalog.str_le.
Proof. intros s1 s2. apply String.leb_total. Qed.

#[global] Instance str_le_antisymm : AntiSymm (=) ChipCatalog.str_le.
Proof. intros s1 s2. apply String.leb_antisym. Qed.

#[global] Instance str_le_trans : Transitive ChipCatalog.str_le.
Proof.
  intros s1 s2 s3. unfold ChipCatalog.str_le, String.leb.
  destruct (String.compare s1 s2) eqn:H12; try discriminate;
    destruct (String.compare s2 s3) eqn:H23; try discriminate; intros _ _.
  - apply String.compare_eq_iff in H12 as ->. by rewrite H23.
  - apply String.compare_eq_iff in H12 as ->. by rewrite H23.
  - apply String.compare_eq_iff in H23 as ->. by rewrite H12.
  - by rewrite (string_compare_lt_trans _ _ _ H12 H23).
Qed.

Example sorted_names :
  ChipCatalog.sorted ["16f887"; "16c54"; "18f452"; "12f675"]
  = ["12f675"; "16c54"; "16f887"; "18f452"].
Proof. reflexivity. Qed.

(** ** Loading, looking up and listing *)

Section CatalogClaims.

Import ChipCatalog.

Context {Raw : Type} (decode : Raw -> option ChipInfoEntry).

Lemma elem_of_record_keys (recs : list Raw) (k : string) :
  k ∈ record_keys decode recs <->
  exists r p, r ∈ recs /\ decode r = Some p /\ key_of p = k.
Proof.
  unfold record_keys. rewrite list_elem_of_omap. split.
  - intros (r & Hr & Hk). destruct (decode r) as [p|] eqn:Hdec; [|discriminate].
    cbn in Hk. injection Hk as Hk. by exists r, p.
  - intros (r & p & Hr & Hdec & Hk). exists r. split; [done|].
    rewrite Hdec. cbn. by rewrite Hk.
Qed.

Lemma load_records_error (recs : list Raw) (cat : gmap string ChipInfoEntry)
    (e : CatalogError) :
  load_records decode recs cat = inl e -> e = Malformed \/ e = DuplicateEntry.
Proof.
  revert cat. induction recs as [|r recs IH]; intros cat; cbn; [discriminate|].
  destruct (decode r) as [p|]; [|intros [= <-]; by left].
  destruct (cat !! key_of p); [intros [= <-]; by right|]. apply IH.
Qed.

(** A loaded catalog holds exactly the identifiers of the file. *)
Lemma loaded_lookup_is_Some (recs : list Raw) (cat : gmap string ChipInfoEntry)
    (k : string) :
  load decode (Some recs) = inr cat ->
  is_Some (cat !! k) <-> k ∈ record_keys decode recs.
Proof.
  intros Hload. cbn in Hload.
  apply load_records_inr in Hload as (_ & _ & _ & Hin & Hout & _). split.
  - intros Hsome. destruct (decide (k ∈ record_keys decode recs)) as [|Hk]; [done|].
    rewrite (Hout k Hk), lookup_empty in Hsome. by destruct Hsome.
  - intros (r & p & Hr & Hdec & <-)%elem_of_record_keys. eexists. by eapply Hin.
Qed.

Lemma lower_ascii_idemp (c : ascii) :
  Py.lower_ascii (Py.lower_ascii c) = Py.lower_ascii c.
Proof. destruct c as [[] [] [] [] [] [] [] []]; reflexivity. Qed.

Lemma lower_idemp (s : string) : Py.lower (Py.lower s) = Py.lower s.
Proof. induction s as [|c s IH]; cbn; [done|]. by rewrite lower_ascii_idemp, IH. Qed.

(** C8: the load fails at construction and never yields a catalog from a
    defective file.  A missing file is [NotFound]; the first record that
    does not decode (bad field count, a size that is no integer, a record
    cut short by truncation) is [Malformed]; the first record whose
    identifier an earlier record carries is [DuplicateEntry]; a file with
    any such record yields no catalog; and a catalog that is produced holds,
    for every record of the file, that record's own profile under its
    identifier, so no record was overwritten by a later one. *)
Theorem load_fails_eagerly :
  load decode None = inl NotFound
  /\ (forall pre r post cat1,
        load decode (Some pre) = inr cat1 -> decode r = None ->
        load decode (Some (pre ++ r :: post)) = inl Malformed)
  /\ (forall pre r post cat1 p,
        load decode (Some pre) = inr cat1 -> decode r = Some p ->
        key_of p ∈ record_keys decode pre ->
        load decode (Some (pre ++ r :: post)) = inl DuplicateEntry)
  /\ (forall recs,
        Exists (fun r => decode r = None) recs \/ ~ NoDup (record_keys decode recs) ->
        exists e, load decode (Some recs) = inl e /\ (e = Malformed \/ e = DuplicateEntry))
  /\ (forall recs cat,
        load decode (Some recs) = inr cat ->
        Forall (fun r => is_Some (decode r)) recs
        /\ NoDup (record_keys decode recs)
        /\ size cat = length recs
        /\ forall r p, r ∈ recs -> decode r = Some p -> cat !! key_of p = Some p).
Proof.
  split; [reflexivity|]. split; [|split; [|split]].
  - intros pre r post cat1 Hpre Hdec. cbn in *.
    rewrite load_records_app, Hpre. cbn. by rewrite Hdec.
  - intros pre r post cat1 p Hpre Hdec Hkey.
    apply (loaded_lookup_is_Some _ _ _ Hpre) in Hkey as [q Hq]. cbn in *.
    rewrite load_records_app, Hpre. cbn. by rewrite Hdec, Hq.
  - intros recs Hdefect. cbn.
    destruct (load_records decode recs ∅) as [e|cat] eqn:Hload.
    + exists e. split; [done|]. by eapply load_records_error.
    + exfalso. apply load_records_inr in Hload as (Hall & Hnd & _).
      destruct Hdefect as [Hex|Hdup]; [|done].
      apply Exists_exists in Hex as (r & Hr & Hnone).
      rewrite Forall_forall in Hall. destruct (Hall r Hr) as [p Hp]. congruence.
  - intros recs cat Hload. cbn in Hload.
    apply load_records_inr in Hload as (Hall & Hnd & _ & Hin & _ & Hsize).
    rewrite map_size_empty in Hsize. done.
Qed.

(** C7: lookup is an exact, case-sensitive match on the lower-case
    identifier.  In a catalog loaded from a file with the record
    [{name: "16f887", rom_size: 8192, eeprom_size: 256, device_id: 0x20F0,
    core: enhanced-14bit, icsp_only: false}], [lookup "16f887"] returns the
    profile with exactly these fields; a name that is not an identifier of
    the file, and so any name with an upper-case letter, fails with
    [UnknownChip]. *)
Theorem lookup_exact_match (recs : list Raw) (cat : gmap string ChipInfoEntry)
    (r : Raw) (flash : bool) :
  let p := {| chip_name := "16f887"; rom_size := 8192; eeprom_size := 256;
              chip_id := 0x20F0; core_type := enhanced_14bit;
              flash_chip := flash; icsp_only := false |} in
  load decode (Some recs) = inr cat ->
  r ∈ recs ->
  decode r = Some p ->
  lookup cat "16f887" = inr p
  /\ (forall name, name ∉ record_keys decode recs -> lookup cat name = inl UnknownChip)
  /\ (forall name, Py.lower name <> name -> lookup cat name = inl UnknownChip).
Proof.
  intros p Hload Hr Hdec.
  assert (Hmiss : forall name, name ∉ record_keys decode recs ->
                               lookup cat name = inl UnknownChip).
  { intros name Hname. unfold lookup.
    destruct (cat !! name) as [q|] eqn:Hq; [|done].
    exfalso. apply Hname. apply (loaded_lookup_is_Some _ _ _ Hload). by eexists. }
  split; [|split; [done|]].
  - unfold lookup. cbn in Hload.
    apply load_records_inr in Hload as (_ & _ & _ & Hin & _).
    by rewrite (Hin r p Hr Hdec : cat !! "16f887" = Some p).
  - intros name Hcase. apply Hmiss.
    intros (r' & p' & _ & _ & Hk)%elem_of_record_keys.
    apply Hcase. rewrite <- Hk. unfold key_of. apply lower_idemp.
Qed.

(** C3: for a catalog loaded from [N] valid records, [list_names()] has
    length [N], is sorted lexicographically, has no duplicates, and holds
    exactly the identifiers of the records. *)
Theorem list_names_sorted_complete (recs : list Raw)
    (cat : gmap string ChipInfoEntry) :
  load decode (Some recs) = inr cat ->
  length (list_names cat) = length recs
  /\ StronglySorted str_le (list_names cat)
  /\ NoDup (list_names cat)
  /\ (forall k, k ∈ list_names cat <-> k ∈ record_keys decode recs).
Proof.
  intros Hload.
  assert (Hperm : list_names cat ≡ₚ keys cat) by apply merge_sort_Permutation.
  split; [|split; [|split]].
  - rewrite Hperm. unfold keys. rewrite length_fmap, length_map_to_list.
    cbn in Hload. apply load_records_inr in Hload as (_ & _ & _ & _ & _ & Hsize).
    by rewrite Hsize, map_size_empty.
  - apply StronglySorted_merge_sort; apply _.
  - rewrite Hperm. apply NoDup_fst_map_to_list.
  - intros k. rewrite Hperm, <- (loaded_lookup_is_Some _ _ _ Hload).
    unfold keys. rewrite list_elem_of_fmap. split.
    + intros ([k' q] & -> & Hq). apply elem_of_map_to_list in Hq. by eexists.
    + intros [q Hq]. exists (k, q). split; [done|]. by apply elem_of_map_to_list.
Qed.

End CatalogClaims.

(** The catalog claims on a file in the delimited layout. *)

Lemma list_names_sorted_complete_witness :
  exists cat,
    ChipCatalog.load DelimitedLayout.decode
      (Some [DelimitedLayout.record_16f887; DelimitedLayout.record_16c54]) = inr cat
    /\ ChipCatalog.list_names cat = ["16c54"; "16f887"]
    /\ length (ChipCatalog.list_names cat) = 2%nat
    /\ NoDup (ChipCatalog.list_names cat).
Proof.
  eexists. split; [reflexivity|].
  split; [vm_compute; reflexivity|].
  pose proof (list_names_sorted_complete DelimitedLayout.decode
                [DelimitedLayout.record_16f887; DelimitedLayout.record_16c54]
                _ eq_refl) as (Hlen & _ & Hnd & _).
  split; [exact Hlen|exact Hnd].
Defined.

Lemma lookup_exact_match_witness :
  exists cat,
    ChipCatalog.load DelimitedLayout.decode
      (Some [DelimitedLayout.record_16c54; DelimitedLayout.record_16f887]) = inr cat
    /\ ChipCatalog.lookup cat "16f887"
         = inr {| chip_name := "16f887"; rom_size := 8192; eeprom_size := 256;
                  chip_id := 0x20F0; core_type := enhanced_14bit;
                  flash_chip := true; icsp_only := false |}
    /\ ChipCatalog.lookup cat "16F887" = inl ChipCatalog.UnknownChip.
Proof.
  eexists. split; [reflexivity|].
  pose proof (lookup_exact_match DelimitedLayout.decode
                [DelimitedLayout.record_16c54; DelimitedLayout.record_16f887]
                _ DelimitedLayout.record_16f887 true eq_refl) as H.
  destruct H as (Hfound & _ & Hcase).
  - right. left.
  - reflexivity.
  - split; [exact Hfound|]. apply Hcase. vm_compute. discriminate.
Defined.

Lemma load_fails_eagerly_witness :
  ChipCatalog.load DelimitedLayout.decode
    (Some [DelimitedLayout.record_16f887; ["16c54"; "512"]]) = inl ChipCatalog.Malformed
  /\ ChipCatalog.load DelimitedLayout.decode
       (Some [DelimitedLayout.record_16f887; DelimitedLayout.record_16c54;
              ["16F887"; "1"; "1"; "0"; "pic18"; "0"; "0"]])
     = inl ChipCatalog.DuplicateEntry.
Proof.
  destruct (load_fails_eagerly DelimitedLayout.decode) as (_ & Hmal & Hdup & _).
  split.
  - apply (Hmal [DelimitedLayout.record_16f887] ["16c54"; "512"] [] _ eq_refl).
    reflexivity.
  - eapply (Hdup [DelimitedLayout.record_16f887; DelimitedLayout.record_16c54]
              ["16F887"; "1"; "1"; "0"; "pic18"; "0"; "0"] [] _ _ eq_refl).
    + reflexivity.
    + left.
Defined.

(** ** The session state machine *)

Section SessionClaims.

Import ProgrammingSession.

Context (block_size : positive).

Lemma last_cons_default {A} (x : A) (h : list A) :
  last (x :: h) = Some (default x (last h)).
Proof.
  revert x. induction h as [|y h IH]; intros x; [done|].
  change (last (x :: y :: h)) with (last (y :: h)). by rewrite IH.
Qed.

Lemma entered_from_program_mode_snoc (prev : ProgramState) (h : list ProgramState)
    (st : ProgramState) :
  entered_from_program_mode prev (h ++ [st]) =
    entered_from_program_mode prev h
    && (if transient st then bool_decide (default prev (last h) = ProgramModeEntered)
        else true).
Proof.
  revert prev. induction h as [|x h IH]; intros prev; cbn.
  - by rewrite andb_true_r.
  - by rewrite IH, last_cons_default, andb_assoc.
Qed.

Lemma settled_new (l : TransportLink) (p : ChipInfoEntry) : settled (new_session l p).
Proof. by repeat split. Qed.

Lemma settled_set_link (l : TransportLink) (s : Session) :
  settled s -> settled (set_link l s).
Proof. by intros (? & ? & ?). Qed.

(** A change to a state that is not transient. *)
Lemma settled_set_state (st : ProgramState) (s : Session) :
  transient st = false -> settled s -> settled (set_state st s).
Proof.
  intros Hst (Hlast & Htr & Hh). repeat split; cbn.
  - by rewrite last_snoc.
  - done.
  - by rewrite entered_from_program_mode_snoc, Hh, Hst.
Qed.

(** Into a transient state from [ProgramModeEntered], and back. *)
Lemma settled_round_trip (st : ProgramState) (l : TransportLink) (s : Session) :
  state s = ProgramModeEntered -> settled s ->
  settled (set_state ProgramModeEntered (set_link l (set_state st s))).
Proof.
  intros Hpm (Hlast & Htr & Hh). repeat split; cbn.
  - by rewrite last_snoc.
  - rewrite !entered_from_program_mode_snoc, Hh, Hlast, Hpm. cbn.
    rewrite bool_decide_eq_true_2 by done. by destruct (transient st).
Qed.

Lemma settled_run_op (o : Op) (s : Session) :
  settled s -> settled (run_op block_size o s).
Proof.
  intros Hs.
  destruct o; cbn [run_op];
    unfold connect, enter_program_mode, read_rom, read_eeprom, read_region,
      write_rom, write_eeprom, write_region, erase, exit_program_mode, disconnect;
    destruct (state s) eqn:Hst; try exact Hs;
    repeat match goal with
      | |- context [bool_decide ?P] => destruct (bool_decide P)
      | |- context [icsp_only ?p && negb ?b] => destruct (icsp_only p && negb b)
      | |- context [exchange ?l ?c] => destruct (exchange l c) as [[?|?] ?]
      | |- context [read_blocks ?l ?r ?g] => destruct (read_blocks l r g) as [[?|?] ?]
      | |- context [write_blocks ?l ?r ?d ?g] =>
          destruct (write_blocks l r d g) as [[?|?] ?]
      | |- context [forallb ?f ?l] => destruct (forallb f l)
      end;
    cbv beta iota zeta delta [snd];
    first
      [ exact Hs
      | by apply settled_round_trip
      | by apply settled_set_state, settled_set_link
      | by apply settled_set_state
      | by apply settled_set_link ].
Qed.

Lemma settled_run_ops (ops : list Op) (s : Session) :
  settled s -> settled (run_ops block_size ops s).
Proof.
  revert s. induction ops as [|o ops IH]; intros s Hs; [done|].
  cbn. apply IH. by apply settled_run_op.
Qed.

(** C2: while the session is [Connected] or [Disconnected], [read_rom],
    [write_rom] and [erase] fail with [InvalidState] and leave the session,
    and with it the log of the link, as it was; and in the history of every
    sequence of operations on a new session, [Reading], [Writing] and
    [Erasing] are entered from [ProgramModeEntered] only. *)
Theorem guarded_outside_program_mode (s : Session) (data : list byte) :
  state s = Connected \/ state s = Disconnected ->
  read_rom block_size s = (inl (OfSession InvalidState), s)
  /\ write_rom block_size data s = (inl (OfSession InvalidState), s)
  /\ erase block_size s = (inl (OfSession InvalidState), s)
  /\ sent (link (read_rom block_size s).2) = sent (link s)
  /\ sent (link (write_rom block_size data s).2) = sent (link s)
  /\ sent (link (erase block_size s).2) = sent (link s)
  /\ forall l p ops,
       entered_from_program_mode Disconnected
         (history (run_ops block_size ops (new_session l p))) = true.
Proof.
  intros Hst.
  assert (read_rom block_size s = (inl (OfSession InvalidState), s)) as Hr
    by (unfold read_rom, read_region; by destruct Hst as [-> | ->]).
  assert (write_rom block_size data s = (inl (OfSession InvalidState), s)) as Hw
    by (unfold write_rom, write_region; by destruct Hst as [-> | ->]).
  assert (erase block_size s = (inl (OfSession InvalidState), s)) as He
    by (unfold erase; by destruct Hst as [-> | ->]).
  rewrite Hr, Hw, He. repeat split.
  intros l p ops. by apply (settled_run_ops ops (new_session l p)), settled_new.
Qed.


End SessionClaims.

(** The session on fake devices. *)

Section SessionRuns.

Import ProgrammingSession.

Example connect_dead_device :
  let '(res, s) := connect
                     (fresh dead_device) in
  res = inl (OfSession DeviceUnresponsive)
  /\ state s = Disconnected.
Proof. by vm_compute. Qed.

Example enter_program_mode_icsp :
  state
    (run_ops 8
       [OpConnect; OpEnterProgramMode true]
       (fresh echo_device))
  = ProgramModeEntered.
Proof. by vm_compute. Qed.

Example write_then_read_round_trip :
  let data := [x00; x01; x02; x03; x04; x05; x06; x07;
               x08; x09; x0a; x0b; x0c; x0d; x0e; x0f] in
  let s := run_ops 8
             [OpConnect; OpEnterProgramMode true;
              OpWriteRom data]
             (fresh echo_device) in
  (read_rom 8 s).1 = inr data
  /\ history (read_rom 8 s).2
     = [Disconnected; Connected; ProgramModeEntered; Writing;
         ProgramModeEntered; Reading; ProgramModeEntered].
Proof. by vm_compute. Qed.

Example write_short_payload_sends_nothing :
  let s := run_ops 8
             [OpConnect; OpEnterProgramMode true]
             (fresh echo_device) in
  write_rom 8 [x00; x01] s
  = (inl (OfSession SizeMismatch), s).
Proof. by vm_compute. Qed.

Lemma guarded_outside_program_mode_witness :
  let s := run_ops 8 [OpConnect]
             (fresh echo_device) in
  state s = Connected
  /\ erase 8 s
     = (inl (OfSession InvalidState), s)
  /\ sent (link (erase 8 s).2)
     = [Handshake].
Proof.
  intros s. split; [reflexivity|].
  pose proof (guarded_outside_program_mode 8 s [] (or_introl eq_refl))
    as (_ & _ & He & _ & _ & Hsent & _).
  split; [exact He|]. rewrite Hsent. reflexivity.
Defined.



End SessionRuns.

(** ** Scoped release *)

Section Scopes.

Context {R : Type}.

Lemma count_app (f : event -> bool) (tr1 tr2 : list event) :
  count f (tr1 ++ tr2) = (count f tr1 + count f tr2)%nat.
Proof. induction tr1 as [|ev tr1 IH]; cbn; [done|]. rewrite IH. lia. Qed.

Lemma scoped_nil : scoped 0 0 [].
Proof. by repeat split. Qed.

Lemma scoped_app (ni1 nc1 ni2 nc2 : nat) (tr1 tr2 : list event) :
  scoped ni1 nc1 tr1 -> scoped ni2 nc2 tr2 ->
  scoped (ni1 + ni2) (nc1 + nc2) (tr1 ++ tr2).
Proof.
  unfold scoped. rewrite !count_app. intros (? & ? & ? & ?) (? & ? & ? & ?).
  repeat split; lia.
Qed.

Lemma scoped_weaken (ni nc ni' nc' : nat) (tr : list event) :
  scoped ni nc tr -> (ni <= ni')%nat -> (nc <= nc')%nat -> scoped ni' nc' tr.
Proof. unfold scoped. intros (? & ? & ? & ?) ? ?. repeat split; lia. Qed.

Lemma scoped_print (s : string) : scoped 0 0 (Ctl.print (R:=R) s).1.
Proof. by repeat split. Qed.

Lemma scoped_ret {A} (a : A) : scoped 0 0 (Ctl.ret (R:=R) a).1.
Proof. by repeat split. Qed.

Lemma scoped_return {A} (r : R) : scoped 0 0 (Ctl.return_ (A:=A) r).1.
Proof. by repeat split. Qed.

Lemma scoped_raise {A} (e : Py.exn) : scoped 0 0 (Ctl.raise (R:=R) (A:=A) e).1.
Proof. by repeat split. Qed.

(** A call that opens or closes no scope. *)
Lemma scoped_call {A} (ev : event) (outcome : Py.exn + A) :
  is_scope_event ev = false -> scoped 0 0 (Ctl.call (R:=R) ev outcome).1.
Proof. intros Hev. destruct ev; try discriminate; by repeat split. Qed.

Lemma scoped_bind {A B} (ni1 nc1 ni2 nc2 : nat) (m : Ctl.M R A) (k : A -> Ctl.M R B) :
  scoped ni1 nc1 m.1 -> (forall a, scoped ni2 nc2 (k a).1) ->
  scoped (ni1 + ni2) (nc1 + nc2) (Ctl.bind m k).1.
Proof.
  intros Hm Hk. destruct m as [tr [a|r|e]]; cbn.
  - specialize (Hk a). destruct (k a) as [tr' c]. by apply scoped_app.
  - eapply scoped_weaken; [exact Hm|lia..].
  - eapply scoped_weaken; [exact Hm|lia..].
Qed.

Lemma scoped_try_except {A} (ni1 nc1 ni2 nc2 : nat) (body : Ctl.M R A)
    (handlers : Py.exn -> option (Ctl.M R A)) :
  scoped ni1 nc1 body.1 ->
  (forall e, match handlers e with
             | Some h => scoped ni2 nc2 h.1
             | None => True
             end) ->
  scoped (ni1 + ni2) (nc1 + nc2) (Ctl.try_except body handlers).1.
Proof.
  intros Hb Hh. destruct body as [tr [a|r|e]]; cbn;
    try (eapply scoped_weaken; [exact Hb|lia..]).
  specialize (Hh e). destruct (handlers e) as [[tr' c]|].
  - by apply scoped_app.
  - eapply scoped_weaken; [exact Hb|lia..].
Qed.

Lemma scoped_with_connection (L : Lib) (port : string) (ni nc : nat)
    (body : unit -> Ctl.M R unit) :
  (forall u, scoped ni nc (body u).1) ->
  scoped ni (1 + nc) (with_connection L port body).1.
Proof.
  intros Hb. unfold with_connection, Ctl.with_, Ctl.bind, Ctl.call, succeeded.
  destruct (connection_init L port) as [e0|[]]; [by repeat split; cbn; lia|].
  destruct (connection_enter L) as [e1|[]]; [by repeat split; cbn; lia|].
  specialize (Hb tt). destruct (body tt) as [tr c].
  destruct Hb as (H1 & H2 & H3 & H4).
  destruct c as [a|r|e]; cbn -[Nat.add] in *;
    unfold scoped; cbn -[Nat.add]; rewrite ?count_app; cbn -[Nat.add];
    repeat split; lia.
Qed.

Lemma scoped_with_programming_interface (L : Lib) (chip : ChipInfoEntry)
    (icsp : bool) (ni nc : nat) (body : unit -> Ctl.M R unit) :
  (forall u, scoped ni nc (body u).1) ->
  scoped (1 + ni) nc (with_programming_interface L chip icsp body).1.
Proof.
  intros Hb. unfold with_programming_interface, Ctl.with_, Ctl.bind, Ctl.call, succeeded.
  destruct (get_programming_interface L chip icsp) as [e0|[]];
    [by repeat split; cbn; lia|].
  destruct (interface_enter L) as [e1|[]]; [by repeat split; cbn; lia|].
  specialize (Hb tt). destruct (body tt) as [tr c].
  destruct Hb as (H1 & H2 & H3 & H4).
  destruct c as [a|r|e]; cbn -[Nat.add] in *;
    unfold scoped; cbn -[Nat.add]; rewrite ?count_app; cbn -[Nat.add];
    repeat split; lia.
Qed.

Lemma scoped_search (L : Lib) (paths : list Py.Path) :
  scoped 0 0 (test_16f887_zif.search (R:=R) L paths).1.
Proof.
  induction paths as [|p rest IH]; [by repeat split|].
  cbn [test_16f887_zif.search]. unfold mbind, Ctl_bind, Ctl.bind, Ctl.call.
  destruct (path_exists L p); cbn.
  - by repeat split.
  - destruct (test_16f887_zif.search L rest) as [tr c]. apply IH.
Qed.

End Scopes.

(** Deriving [scoped] along the text of a script. *)
Ltac derive_scoped :=
  cbv beta;
  lazymatch goal with
  | |- True => exact I
  | |- match (if ?b then _ else _) with _ => _ end =>
      destruct b; cbv beta iota; derive_scoped
  | |- scoped ?ni _ _ =>
      tryif is_evar ni then derive_scoped_direct
      else (eapply scoped_weaken; [derive_scoped_direct | cbn; lia | cbn; lia])
  end
with derive_scoped_direct :=
  lazymatch goal with
  | |- scoped _ _ (if ?b then _ else _).1 => destruct b; derive_scoped
  | |- scoped _ _ (Ctl.bind _ _).1 =>
      eapply scoped_bind; [derive_scoped | intros ?; derive_scoped]
  | |- scoped _ _ (Ctl.try_except _ _).1 =>
      eapply scoped_try_except; [derive_scoped | intros ?; derive_scoped]
  | |- scoped _ _ (with_connection _ _ _).1 =>
      eapply scoped_with_connection; intros ?; derive_scoped
  | |- scoped _ _ (with_programming_interface _ _ _ _).1 =>
      eapply scoped_with_programming_interface; intros ?; derive_scoped
  | |- scoped _ _ (Ctl.print _).1 => apply scoped_print
  | |- scoped _ _ (Ctl.ret _).1 => apply scoped_ret
  | |- scoped _ _ (Ctl.return_ _).1 => apply scoped_return
  | |- scoped _ _ (Ctl.raise _).1 => apply scoped_raise
  | |- scoped _ _ (Ctl.call _ _).1 => apply scoped_call; reflexivity
  | |- scoped _ _ (test_16f887_zif.search _ _).1 => apply scoped_search
  end.

Ltac open_script :=
  unfold test_16f887_zif.test_chip_detection, test_zif_hardware.test_hardware_connection,
    test_16f887_zif.find_chip_data, get_chip, mbind, mret, Ctl_bind, Ctl_ret;
  cbv beta.

Lemma test_chip_detection_scoped (L : Lib) (port : string) (icsp : bool) :
  scoped 1 1 (test_16f887_zif.test_chip_detection L port icsp).1.
Proof. open_script. derive_scoped. Qed.

Lemma test_hardware_connection_scoped (L : Lib) (port : string) :
  scoped 1 1 (test_zif_hardware.test_hardware_connection L port).1.
Proof. open_script. derive_scoped. Qed.

(** ** Runs that differ on the console only *)

Section SameRun.

Context {R : Type}.

Lemma calls_app (tr1 tr2 : list event) : calls (tr1 ++ tr2) = calls tr1 ++ calls tr2.
Proof. unfold calls. apply List.filter_app. Qed.

Lemma same_run_refl {A} (m : Ctl.M R A) : same_run m m.
Proof. by split. Qed.

Lemma same_run_bind {A B} (m1 m2 : Ctl.M R A) (k1 k2 : A -> Ctl.M R B) :
  same_run m1 m2 -> (forall a, same_run (k1 a) (k2 a)) ->
  same_run (Ctl.bind m1 k1) (Ctl.bind m2 k2).
Proof.
  destruct m1 as [tr1 c1], m2 as [tr2 c2]. intros [Htr Hc] Hk. cbn in Htr, Hc.
  subst c2. destruct c1 as [a|r|e]; cbn; [|by split..].
  specialize (Hk a). destruct (k1 a) as [t1 d1], (k2 a) as [t2 d2].
  destruct Hk as [Ht Hd]. cbn in Ht, Hd. split; cbn; [|done].
  by rewrite !calls_app, Htr, Ht.
Qed.

Lemma same_run_try_except {A} (body1 body2 : Ctl.M R A)
    (handlers : Py.exn -> option (Ctl.M R A)) :
  same_run body1 body2 ->
  same_run (Ctl.try_except body1 handlers) (Ctl.try_except body2 handlers).
Proof.
  destruct body1 as [tr1 c1], body2 as [tr2 c2]. intros [Htr Hc]. cbn in Htr, Hc.
  subst c2. destruct c1 as [a|r|e]; cbn; [by split..|].
  destruct (handlers e) as [[th ch]|]; [|by split].
  split; cbn; [|done]. by rewrite !calls_app, Htr.
Qed.

Lemma same_run_with {A} (expr : Ctl.M R A) (enter : A -> Ctl.M R unit)
    (exit : A -> option Py.exn -> list event * Ctl.exit_outcome)
    (body1 body2 : A -> Ctl.M R unit) :
  (forall a, same_run (body1 a) (body2 a)) ->
  same_run (Ctl.with_ expr enter exit body1) (Ctl.with_ expr enter exit body2).
Proof.
  intros Hb. unfold Ctl.with_. apply same_run_bind; [apply same_run_refl|].
  intros mgr. apply same_run_bind; [apply same_run_refl|]. intros _.
  specialize (Hb mgr). destruct (body1 mgr) as [t1 c1], (body2 mgr) as [t2 c2].
  destruct Hb as [Ht Hc]. cbn in Ht, Hc. subst c2.
  destruct c1 as [a|r|e]; destruct (exit mgr _) as [tx o];
    (split; cbn; [by rewrite !calls_app, Ht|done]).
Qed.

Lemma same_run_with_connection (L : Lib) (o1 o2 : Py.exn + Z) (port : string)
    (body1 body2 : unit -> Ctl.M R unit) :
  (forall u, same_run (body1 u) (body2 u)) ->
  same_run (with_connection (with_device_id L o1) port body1)
           (with_connection (with_device_id L o2) port body2).
Proof. intros Hb. by apply (same_run_with _ _ _ body1 body2). Qed.

Lemma same_run_with_programming_interface (L : Lib) (o1 o2 : Py.exn + Z)
    (chip : ChipInfoEntry) (icsp : bool) (body1 body2 : unit -> Ctl.M R unit) :
  (forall u, same_run (body1 u) (body2 u)) ->
  same_run (with_programming_interface (with_device_id L o1) chip icsp body1)
           (with_programming_interface (with_device_id L o2) chip icsp body2).
Proof. intros Hb. by apply (same_run_with _ _ _ body1 body2). Qed.

End SameRun.

(** The guarded read of the device ID, failed and succeeded. *)
Lemma device_id_read_zif {R : Type} (L : Lib) (e : Py.exn) (device_id : Z) :
  same_run (R:=R)
    (Ctl.try_except
       (Ctl.bind (Ctl.call ReadDeviceId (read_device_id (with_device_id L (inl e))))
          (fun device_id => Ctl.print ("✓ Device ID: " +:+ Py.hex device_id)))
       (fun _ => Some (Ctl.print "  (Device ID read not supported or failed)")))
    (Ctl.try_except
       (Ctl.bind (Ctl.call ReadDeviceId
                    (read_device_id (with_device_id L (inr device_id))))
          (fun device_id => Ctl.print ("✓ Device ID: " +:+ Py.hex device_id)))
       (fun _ => Some (Ctl.print "  (Device ID read not supported or failed)"))).
Proof. by split. Qed.

Lemma device_id_read_hardware {R : Type} (L : Lib) (chip_info : ChipInfoEntry)
    (e : Py.exn) (device_id : Z) :
  Py.is_Exception e = true ->
  same_run (R:=R)
    (Ctl.try_except
       (Ctl.bind (Ctl.call ReadDeviceId (read_device_id (with_device_id L (inl e))))
          (fun device_id =>
             Ctl.bind (Ctl.print ("✓ Device ID: " +:+ Py.hex device_id))
               (fun _ =>
                  if bool_decide (device_id = chip_id chip_info)
                  then Ctl.print "🎉 Device ID matches! PIC16F887 detected correctly"
                  else Ctl.print ("⚠ Device ID mismatch. Expected: "
                                    +:+ Py.hex (chip_id chip_info) +:+ ", Got: "
                                    +:+ Py.hex device_id))))
       (fun e =>
          if Py.is_Exception e
          then Some (Ctl.print ("ℹ Device ID read failed (may be normal): "
                                  +:+ Py.str_exn e))
          else None))
    (Ctl.try_except
       (Ctl.bind (Ctl.call ReadDeviceId
                    (read_device_id (with_device_id L (inr device_id))))
          (fun device_id =>
             Ctl.bind (Ctl.print ("✓ Device ID: " +:+ Py.hex device_id))
               (fun _ =>
                  if bool_decide (device_id = chip_id chip_info)
                  then Ctl.print "🎉 Device ID matches! PIC16F887 detected correctly"
                  else Ctl.print ("⚠ Device ID mismatch. Expected: "
                                    +:+ Py.hex (chip_id chip_info) +:+ ", Got: "
                                    +:+ Py.hex device_id))))
       (fun e =>
          if Py.is_Exception e
          then Some (Ctl.print ("ℹ Device ID read failed (may be normal): "
                                  +:+ Py.str_exn e))
          else None)).
Proof.
  intros He. unfold Ctl.try_except, Ctl.bind, Ctl.call, Ctl.print.
  cbn [with_device_id read_device_id]. rewrite He.
  by destruct (bool_decide (device_id = chip_id chip_info)).
Qed.

Ltac derive_same_run :=
  cbv beta;
  lazymatch goal with
  | |- same_run (Ctl.try_except (Ctl.bind (Ctl.call ReadDeviceId _) _) _) _ =>
      first [ apply device_id_read_zif | by apply device_id_read_hardware ]
  | |- same_run (Ctl.bind _ _) (Ctl.bind _ _) =>
      apply same_run_bind; [derive_same_run | intros ?; derive_same_run]
  | |- same_run (Ctl.try_except _ _) (Ctl.try_except _ _) =>
      apply same_run_try_except; derive_same_run
  | |- same_run (with_connection _ _ _) (with_connection _ _ _) =>
      apply same_run_with_connection; intros ?; derive_same_run
  | |- same_run (with_programming_interface _ _ _ _)
         (with_programming_interface _ _ _ _) =>
      apply same_run_with_programming_interface; intros ?; derive_same_run
  | |- same_run _ _ => split; reflexivity
  end.

Lemma test_chip_detection_same_run (L : Lib) (port : string) (icsp : bool)
    (e : Py.exn) (device_id : Z) :
  same_run
    (test_16f887_zif.test_chip_detection (with_device_id L (inl e)) port icsp)
    (test_16f887_zif.test_chip_detection (with_device_id L (inr device_id)) port icsp).
Proof. open_script. derive_same_run. Qed.

Lemma test_hardware_connection_same_run (L : Lib) (port : string)
    (e : Py.exn) (device_id : Z) :
  Py.is_Exception e = true ->
  same_run
    (test_zif_hardware.test_hardware_connection (with_device_id L (inl e)) port)
    (test_zif_hardware.test_hardware_connection (with_device_id L (inr device_id)) port).
Proof. intros He. open_script. derive_same_run. Qed.

(** The trace of a session that was established: the entries, what the body
    does, and the two exits, whatever way the body ends. *)
Lemma session_trace {R : Type} (L : Lib) (port : string) (chip : ChipInfoEntry)
    (icsp : bool) (body : unit -> Ctl.M R unit) :
  connection_init L port = inr tt ->
  connection_enter L = inr tt ->
  get_programming_interface L chip icsp = inr tt ->
  interface_enter L = inr tt ->
  exists e,
    (with_connection L port
       (fun _ => with_programming_interface L chip icsp body)).1
    = [ConnectionInit port; ConnectionEnter true; GetProgrammingInterface icsp;
       InterfaceEnter true]
      ++ (body tt).1
      ++ [InterfaceExit (in_flight (body tt).2); ConnectionExit e].
Proof.
  intros H1 H2 H3 H4.
  unfold with_connection, with_programming_interface, Ctl.with_, Ctl.bind, Ctl.call,
    succeeded.
  rewrite H1, H2, H3, H4. destruct (body tt) as [tr c].
  destruct c as [a|r|e]; cbn [in_flight snd fst];
    destruct (interface_exit L _) as [[|]|e']; cbn;
    eexists; rewrite <- ?app_assoc; reflexivity.
Qed.

(** C5: a session is left exactly once, on every way out.  For every body
    of a session (any sequence of operations, ending normally, in a
    [return], in an exception or in [KeyboardInterrupt]) the trace of the
    two nested [with] blocks has as many exits of the programming interface
    (leaving program mode) as entries that returned, as many exits of the
    connection (releasing the link) as entries that returned, and at most
    one of each; once both were entered, the two exits end the trace, in
    this order.  [test_chip_detection] and [test_hardware_connection] are
    such sessions. *)
Theorem scoped_release (L : Lib) (port : string) (icsp : bool) :
  (forall (R : Type) (chip : ChipInfoEntry) (body : unit -> Ctl.M R unit),
      (forall u, scoped 0 0 (body u).1) ->
      scoped 1 1
        (with_connection L port
           (fun _ => with_programming_interface L chip icsp body)).1
      /\ (connection_init L port = inr tt ->
          connection_enter L = inr tt ->
          get_programming_interface L chip icsp = inr tt ->
          interface_enter L = inr tt ->
          exists e,
            (with_connection L port
               (fun _ => with_programming_interface L chip icsp body)).1
            = [ConnectionInit port; ConnectionEnter true;
               GetProgrammingInterface icsp; InterfaceEnter true]
              ++ (body tt).1
              ++ [InterfaceExit (in_flight (body tt).2); ConnectionExit e]))
  /\ scoped 1 1 (test_16f887_zif.test_chip_detection L port icsp).1
  /\ scoped 1 1 (test_zif_hardware.test_hardware_connection L port).1.
Proof.
  split; [|split].
  - intros R chip body Hbody. split.
    + apply (scoped_with_connection L port 1 0).
      intros _. by apply (scoped_with_programming_interface L chip icsp 0 0).
    + apply session_trace.
  - apply test_chip_detection_scoped.
  - apply test_hardware_connection_scoped.
Qed.

(** C6: a failed [read_device_id] does not abort the workflow.  Whatever
    exception the read raises in [test_chip_detection], and whatever
    [Exception] it raises in [test_hardware_connection], the run makes the
    same calls in the same order and ends the same way as the run in which
    the read succeeded: the steps after the read still run, and the result
    is the same. *)
Theorem device_id_failure_recoverable (L : Lib) (port : string) (icsp : bool)
    (e : Py.exn) (device_id : Z) :
  Py.is_Exception e = true ->
  same_run
    (test_16f887_zif.test_chip_detection (with_device_id L (inl e)) port icsp)
    (test_16f887_zif.test_chip_detection (with_device_id L (inr device_id)) port icsp)
  /\ same_run
       (test_zif_hardware.test_hardware_connection (with_device_id L (inl e)) port)
       (test_zif_hardware.test_hardware_connection
          (with_device_id L (inr device_id)) port).
Proof.
  intros He. split.
  - apply test_chip_detection_same_run.
  - by apply test_hardware_connection_same_run.
Qed.

(** A session that fails in the middle: the configuration read times out. *)
Lemma scoped_release_witness :
  let L := bench (inl (Py.OtherException "LinkError" "timeout")) in
  let run := test_16f887_zif.test_chip_detection L "/dev/ttyUSB0" true in
  run.2 = Ctl.Return false
  /\ count is_interface_exit run.1 = 1%nat
  /\ count is_connection_exit run.1 = 1%nat
  /\ calls run.1
     = [PathExists {| Py.absolute := true;
                      Py.parts := ["opt"; "picpro"; "usr"; "share"; "picpro";
                                   "chipdata.cid"] |};
        PathExists chipdata_abs;
        ReaderInit chipdata_abs;
        GetChip "16f887";
        ConnectionInit "/dev/ttyUSB0";
        ConnectionEnter true;
        GetProgrammingInterface true;
        InterfaceEnter true;
        ReadConfig;
        InterfaceExit (Some (Py.OtherException "LinkError" "timeout"));
        ConnectionExit (Some (Py.OtherException "LinkError" "timeout"))].
Proof.
  intros L run.
  destruct (scoped_release L "/dev/ttyUSB0" true) as (_ & (Hi & Hc & _ & _) & _).
  subst run. split; [by vm_compute|].
  split; [rewrite Hi; by vm_compute|].
  split; [rewrite Hc; by vm_compute|by vm_compute].
Defined.

(** The core does not implement the device-ID read; the test passes. *)
Lemma device_id_failure_recoverable_witness :
  let e := Py.OtherException "DeviceIdUnsupported" "not implemented" in
  let L := bench (inr [x3f; xff]) in
  (test_16f887_zif.test_chip_detection (with_device_id L (inl e)) "/dev/ttyUSB0" false).2
    = Ctl.Return true
  /\ (test_zif_hardware.test_hardware_connection (with_device_id L (inl e))
        "/dev/ttyUSB0").2
     = Ctl.Return true
  /\ same_run
       (test_16f887_zif.test_chip_detection (with_device_id L (inl e))
          "/dev/ttyUSB0" false)
       (test_16f887_zif.test_chip_detection (with_device_id L (inr 0x20F0))
          "/dev/ttyUSB0" false)
  /\ same_run
       (test_zif_hardware.test_hardware_connection (with_device_id L (inl e))
          "/dev/ttyUSB0")
       (test_zif_hardware.test_hardware_connection (with_device_id L (inr 0x20F0))
          "/dev/ttyUSB0").
Proof.
  intros e L.
  split; [by vm_compute|]. split; [by vm_compute|].
  apply (device_id_failure_recoverable L "/dev/ttyUSB0" false e 0x20F0).
  reflexivity.
Defined.

(** A cancelled session: [KeyboardInterrupt] leaves both [with] blocks
    through their exits and is not caught by [except Exception]. *)
Example cancelled_session_is_released :
  let L := bench (inl Py.KeyboardInterrupt) in
  let run := test_zif_hardware.test_hardware_connection L "/dev/ttyUSB0" in
  run.2 = Ctl.Raise Py.KeyboardInterrupt
  /\ calls run.1
     = [ReaderInit chipdata_rel; GetChip "16f887"; ConnectionInit "/dev/ttyUSB0";
        ConnectionEnter true; GetProgrammingInterface false; InterfaceEnter true;
        ReadConfig; InterfaceExit (Some Py.KeyboardInterrupt);
        ConnectionExit (Some Py.KeyboardInterrupt)].
Proof. by vm_compute. Qed.

Example list_chips_main_lists_sorted :
  calls (list_chips.main (bench (inr []))).1
  = [PathExists {| Py.absolute := true;
                   Py.parts := ["opt"; "picpro"; "usr"; "share"; "picpro";
                                "chipdata.cid"] |};
     PathExists chipdata_abs; ReaderInit chipdata_abs]
  /\ (list_chips.main (bench (inr []))).2 = Ctl.Return 0
  /\ In (Print "16f887") (list_chips.main (bench (inr []))).1.
Proof. vm_compute. repeat split. do 6 right. by left. Qed.

(** ** The listing script *)

Section ListChips.

Lemma print_all_run {R : Type} (chips : list string) :
  list_chips.print_all (R:=R) chips = (Print <$> chips, Ctl.Normal tt).
Proof.
  induction chips as [|chip rest IH]; [reflexivity|].
  cbn [list_chips.print_all]. unfold mbind, Ctl_bind, Ctl.bind, Ctl.print.
  by rewrite IH.
Qed.

Lemma length_sorted_keys (cat : gmap string ChipInfoEntry) :
  length (ChipCatalog.sorted (ChipCatalog.keys cat)) = size cat.
Proof.
  unfold ChipCatalog.sorted, ChipCatalog.keys.
  by rewrite merge_sort_Permutation, length_fmap, length_map_to_list.
Qed.

Ltac open_main :=
  unfold list_chips.main, list_chips.find_chip_data, mbind, mret, Ctl_bind, Ctl_ret;
  rewrite list_chips_search_spec.

Ltac run_listing :=
  unfold Ctl.try_except, Ctl.bind, Ctl.call, Ctl.print, Ctl.return_, Ctl.ret;
  rewrite ?print_all_run;
  cbn -[String.append Py.str_path Py.str_int Py.repeat_str Py.nl Py.str_exn
        ChipCatalog.sorted ChipCatalog.keys filter take list_chips.possible_paths].

(** X5: the exit code of [list_chips.main].  It is 1 when none of the
    candidate files exists and when [ChipInfoReader] raises an [Exception],
    0 when the catalog was read; an exception outside [Exception] (such as
    [KeyboardInterrupt]) from the reader is not caught. *)
Theorem list_chips_main_exit_code (L : Lib) :
  (list_chips.main L).2 =
    match list_find (fun p => path_exists L p = true) (list_chips.possible_paths L) with
    | None => Ctl.Return 1
    | Some (_, p) =>
        match chip_info_reader L p with
        | inr _ => Ctl.Return 0
        | inl e => if Py.is_Exception e then Ctl.Return 1 else Ctl.Raise e
        end
    end.
Proof.
  open_main.
  destruct (list_find _ (list_chips.possible_paths L)) as [[i p]|]; run_listing.
  - destruct (chip_info_reader L p) as [e|cat]; run_listing.
    + by destruct (Py.is_Exception e).
    + reflexivity.
  - reflexivity.
Qed.

(** X6: when no candidate file exists, [list_chips.main] has asked about
    the three candidates and done nothing else: no reader is opened, and the
    one line printed is the error. *)
Theorem list_chips_main_not_found (L : Lib) :
  (forall p, p ∈ list_chips.possible_paths L -> path_exists L p = false) ->
  list_chips.main L
  = ((PathExists <$> list_chips.possible_paths L)
       ++ [Print "Error: chipdata.cid file not found"],
     Ctl.Return 1).
Proof.
  intros Hnone. open_main.
  destruct (list_find _ (list_chips.possible_paths L)) as [[i p]|] eqn:Hfind.
  - apply list_find_Some in Hfind as (Hp%list_elem_of_lookup_2 & Hex & _).
    rewrite (Hnone p Hp) in Hex. discriminate.
  - reflexivity.
Qed.

(** X7: when the catalog is read, [list_chips.main] announces as many chips
    as the reader has entries, prints every identifier once in sorted order,
    and then, in the same order, those that start with [16f] and contain an
    [8]; it opens the reader on the first candidate that exists. *)
Theorem list_chips_main_listing (L : Lib) (i : nat) (p : Py.Path)
    (cat : gmap string ChipInfoEntry) :
  list_find (fun p => path_exists L p = true) (list_chips.possible_paths L)
    = Some (i, p) ->
  chip_info_reader L p = inr cat ->
  let names := ChipCatalog.list_names cat in
  list_chips.main L
  = ((PathExists <$> take (S i) (list_chips.possible_paths L))
       ++ [Print ("Reading chip data from: " +:+ Py.str_path p);
           ReaderInit p;
           Print (Py.nl +:+ "Found " +:+ Py.str_int (Z.of_nat (size cat))
                    +:+ " supported PIC chips:");
           Print (Py.repeat_str "=" 50)]
       ++ (Print <$> names)
       ++ [Print (Py.nl +:+ "16F series chips containing '8':");
           Print (Py.repeat_str "-" 30)]
       ++ (Print <$> filter (fun chip => String.prefix "16f" chip
                                          && list_chips.contains_8 chip = true) names),
     Ctl.Return 0)
  /\ length names = size cat
  /\ NoDup names
  /\ StronglySorted ChipCatalog.str_le names.
Proof.
  intros Hfind Hreader names. split; [|split; [|split]].
  - open_main. rewrite Hfind. run_listing. rewrite Hreader. run_listing.
    rewrite length_sorted_keys. unfold names, ChipCatalog.list_names.
    f_equal. apply app_nil_r.
  - apply length_sorted_keys.
  - unfold names, ChipCatalog.list_names, ChipCatalog.sorted.
    rewrite merge_sort_Permutation. apply NoDup_fst_map_to_list.
  - apply StronglySorted_merge_sort; apply _.
Qed.

End ListChips.

Lemma list_chips_main_not_found_witness :
  list_chips.main bare_machine
  = ([PathExists {| Py.absolute := true;
                    Py.parts := ["opt"; "picpro"; "usr"; "share"; "picpro";
                                 "chipdata.cid"] |};
      PathExists chipdata_abs; PathExists chipdata_cwd;
      Print "Error: chipdata.cid file not found"],
     Ctl.Return 1).
Proof. apply (list_chips_main_not_found bare_machine). reflexivity. Defined.

Lemma list_chips_main_listing_witness :
  (list_chips.main (bench (inr []))).2 = Ctl.Return 0
  /\ length (ChipCatalog.list_names {[ "16f887" := profile_16f887 ]}) = 1%nat.
Proof.
  destruct (list_chips_main_listing (bench (inr [])) 1 chipdata_abs
              {[ "16f887" := profile_16f887 ]} eq_refl eq_refl)
    as (Hrun & Hlen & _).
  split; [by rewrite Hrun|exact Hlen].
Defined.

(** ** The test scripts *)

Section TestScripts.

Lemma bind_print_completion {R A} (s : string) (k : unit -> Ctl.M R A) :
  (Ctl.bind (Ctl.print s) k).2 = (k tt).2.
Proof. unfold Ctl.bind, Ctl.print. by destruct (k tt). Qed.

Ltac run_test :=
  unfold with_connection, with_programming_interface, get_chip, ChipCatalog.lookup,
    Ctl.with_, Ctl.try_except, Ctl.bind, Ctl.call, Ctl.print, Ctl.return_, Ctl.ret,
    Ctl.raise, succeeded;
  cbn -[String.append Py.str_path Py.str_int Py.hex Py.repeat_str Py.nl Py.str_exn
        Py.str_bool take test_16f887_zif.possible_paths list_chips.possible_paths
        test_16f887_zif.str_core_type calls].

Ltac open_test :=
  unfold test_16f887_zif.test_chip_info, test_16f887_zif.test_connection,
    test_16f887_zif.test_chip_detection, test_zif_hardware.test_hardware_connection,
    test_16f887_zif.find_chip_data, mbind, mret, Ctl_bind, Ctl_ret;
  rewrite ?zif_search_eq, ?list_chips_search_spec.

(** X9: what [test_chip_info] returns.  It is the catalog's entry for
    [16f887], read from the first candidate file that exists; it is [None]
    when no candidate exists, when the reader raises an [Exception], and
    when the catalog has no such chip. *)
Theorem test_chip_info_result (L : Lib) :
  (test_16f887_zif.test_chip_info L).2 =
    match list_find (fun p => path_exists L p = true)
            (test_16f887_zif.possible_paths L) with
    | None => Ctl.Return None
    | Some (_, p) =>
        match chip_info_reader L p with
        | inr cat => Ctl.Return (cat !! "16f887")
        | inl e => if Py.is_Exception e then Ctl.Return None else Ctl.Raise e
        end
    end.
Proof.
  open_test.
  change (test_16f887_zif.possible_paths L) with (list_chips.possible_paths L).
  destruct (list_find (fun p => path_exists L p = true) (list_chips.possible_paths L))
    as [[i p]|]; run_test; [|reflexivity].
  destruct (chip_info_reader L p) as [e|cat]; run_test.
  - by destruct (Py.is_Exception e).
  - by destruct (cat !! "16f887").
Qed.

Lemma test_connection_scoped (L : Lib) (port : string) :
  scoped 0 1 (test_16f887_zif.test_connection L port).1.
Proof.
  unfold test_16f887_zif.test_connection, mbind, mret, Ctl_bind, Ctl_ret.
  cbv beta. derive_scoped.
Qed.

(** X10: the connection [test_connection] returns is closed.  When the
    function returns a connection, the run has opened it, entered it and
    left it, in this order and with no exception in flight, and has made no
    other call; in every run a connection that was entered is left once. *)
Theorem test_connection_returns_closed (L : Lib) (port : string) :
  scoped 0 1 (test_16f887_zif.test_connection L port).1
  /\ ((test_16f887_zif.test_connection L port).2 = Ctl.Return (Some tt) ->
      calls (test_16f887_zif.test_connection L port).1
      = [ConnectionInit port; ConnectionEnter true; ConnectionExit None])
  /\ (forall e, Py.is_Exception e = true ->
        connection_init L port = inl e ->
        (test_16f887_zif.test_connection L port).2 = Ctl.Return None)
  /\ (forall e, Py.is_Exception e = true ->
        connection_init L port = inr tt -> connection_enter L = inl e ->
        (test_16f887_zif.test_connection L port).2 = Ctl.Return None).
Proof.
  split; [|split; [|split]].
  - apply test_connection_scoped.
  - open_test. run_test.
    destruct (connection_init L port) as [e0|[]]; run_test;
      [destruct (Py.is_Exception e0); discriminate|].
    destruct (connection_enter L) as [e1|[]]; run_test;
      [destruct (Py.is_Exception e1); discriminate|].
    destruct (connection_exit L None) as [b|e2]; run_test; [done|].
    destruct (Py.is_Exception e2); discriminate.
  - intros e He Hinit. open_test. run_test. rewrite Hinit. run_test. by rewrite He.
  - intros e He Hinit Henter. open_test. run_test. rewrite Hinit, Henter. run_test.
    by rewrite He.
Qed.

(** A branch of a run that cannot end in the completion assumed. *)
Ltac dead_branch :=
  solve [ intros Hdead; exfalso; revert Hdead;
          repeat (match goal with
                  | |- context [match ?x with _ => _ end] =>
                      lazymatch x with
                      | context [match _ with _ => _ end] => fail
                      | _ => destruct x
                      end
                  end; run_test);
          discriminate ].

(** X11: when [test_chip_detection] passes.  It returns [True] exactly when
    a candidate file exists, the reader loads it, the catalog knows
    [16f887], the connection and the programming interface are obtained and
    entered, [read_config] returns, and both [__exit__] calls return.  The
    outcome of [read_device_id] plays no part. *)
Theorem test_chip_detection_passes (L : Lib) (port : string) (icsp : bool) :
  (test_16f887_zif.test_chip_detection L port icsp).2 = Ctl.Return true <->
  exists i p cat chip,
    list_find (fun p => path_exists L p = true) (test_16f887_zif.possible_paths L)
      = Some (i, p)
    /\ chip_info_reader L p = inr cat
    /\ cat !! "16f887" = Some chip
    /\ connection_init L port = inr tt
    /\ connection_enter L = inr tt
    /\ get_programming_interface L chip icsp = inr tt
    /\ interface_enter L = inr tt
    /\ succeeded (read_config L) = true
    /\ (exists b, interface_exit L None = Ctl.ExitReturn b)
    /\ (exists b, connection_exit L None = Ctl.ExitReturn b).
Proof.
  open_test.
  change (test_16f887_zif.possible_paths L) with (list_chips.possible_paths L).
  split.
  - destruct (list_find (fun p => path_exists L p = true) (list_chips.possible_paths L))
      as [[i p]|]; run_test; [|dead_branch].
    destruct (chip_info_reader L p) as [e|cat] eqn:Hcat; run_test; [dead_branch|].
    destruct (cat !! "16f887") as [chip|] eqn:Hchip; run_test; [|dead_branch].
    destruct (connection_init L port) as [e|[]] eqn:Hci; run_test; [dead_branch|].
    destruct (connection_enter L) as [e|[]] eqn:Hce; run_test; [dead_branch|].
    destruct (get_programming_interface L chip icsp) as [e|[]] eqn:Hgp; run_test;
      [dead_branch|].
    destruct (interface_enter L) as [e|[]] eqn:Hie; run_test; [dead_branch|].
    destruct (read_config L) as [e|config] eqn:Hrc; run_test; [dead_branch|].
    destruct (read_device_id L) as [e|id]; run_test;
      (destruct (interface_exit L None) as [bi|e'] eqn:Hix; run_test; [|dead_branch];
       destruct (connection_exit L None) as [bc|e''] eqn:Hcx; run_test; [|dead_branch];
       intros _; exists i, p, cat, chip; repeat split; eauto).
  - intros (i & p & cat & chip & -> & Hcat & Hchip & Hci & Hce & Hgp & Hie & Hrc
            & [bi Hix] & [bc Hcx]).
    run_test. rewrite Hcat. run_test. rewrite Hchip. run_test.
    rewrite Hci, Hce. run_test. rewrite Hgp, Hie. run_test.
    destruct (read_config L) as [e|config]; [discriminate|]. run_test.
    destruct (read_device_id L) as [e|id]; run_test; by rewrite Hix, Hcx.
Qed.

Lemma test_chip_detection_passes_witness :
  (test_16f887_zif.test_chip_detection (bench (inr [x3f; xff])) "/dev/ttyUSB0" true).2
  = Ctl.Return true.
Proof.
  apply (test_chip_detection_passes (bench (inr [x3f; xff])) "/dev/ttyUSB0" true).
  exists 1%nat, chipdata_abs, {[ "16f887" := profile_16f887 ]}, profile_16f887.
  repeat split; by eexists.
Defined.

(** X12: when [test_hardware_connection] passes.  It reads the catalog from
    the relative path [usr/share/picpro/chipdata.cid] alone, asks for the
    programming interface in non-ICSP mode, and returns [True] exactly when
    the reader loads, the catalog knows [16f887], connection and interface
    are obtained and entered, [read_config] returns, [read_device_id]
    returns or raises an [Exception], and both [__exit__] calls return. *)
Theorem test_hardware_connection_passes (L : Lib) (port : string) :
  (test_zif_hardware.test_hardware_connection L port).2 = Ctl.Return true <->
  exists cat chip,
    chip_info_reader L
      {| Py.absolute := false; Py.parts := ["usr"; "share"; "picpro"; "chipdata.cid"] |}
      = inr cat
    /\ cat !! "16f887" = Some chip
    /\ connection_init L port = inr tt
    /\ connection_enter L = inr tt
    /\ get_programming_interface L chip false = inr tt
    /\ interface_enter L = inr tt
    /\ succeeded (read_config L) = true
    /\ (forall e, read_device_id L = inl e -> Py.is_Exception e = true)
    /\ (exists b, interface_exit L None = Ctl.ExitReturn b)
    /\ (exists b, connection_exit L None = Ctl.ExitReturn b).
Proof.
  open_test. fold chipdata_rel. split.
  - run_test.
    destruct (chip_info_reader L chipdata_rel) as [e|cat] eqn:Hcat; run_test;
      [dead_branch|].
    destruct (cat !! "16f887") as [chip|] eqn:Hchip; run_test; [|dead_branch].
    destruct (connection_init L port) as [e|[]] eqn:Hci; run_test; [dead_branch|].
    destruct (connection_enter L) as [e|[]] eqn:Hce; run_test; [dead_branch|].
    destruct (get_programming_interface L chip false) as [e|[]] eqn:Hgp; run_test;
      [dead_branch|].
    destruct (interface_enter L) as [e|[]] eqn:Hie; run_test; [dead_branch|].
    destruct (read_config L) as [e|config] eqn:Hrc; run_test; [dead_branch|].
    destruct (read_device_id L) as [e|id] eqn:Hid; run_test.
    + destruct (Py.is_Exception e) eqn:He; run_test; [|dead_branch].
      destruct (interface_exit L None) as [bi|e'] eqn:Hix; run_test; [|dead_branch].
      destruct (connection_exit L None) as [bc|e''] eqn:Hcx; run_test; [|dead_branch].
      intros _. exists cat, chip. repeat split; eauto. by intros ? [= <-].
    + destruct (bool_decide (id = chip_id chip)); run_test;
        (destruct (interface_exit L None) as [bi|e'] eqn:Hix; run_test;
           [|dead_branch];
         destruct (connection_exit L None) as [bc|e''] eqn:Hcx; run_test;
           [|dead_branch];
         intros _; exists cat, chip; repeat split; eauto; discriminate).
  - intros (cat & chip & Hcat & Hchip & Hci & Hce & Hgp & Hie & Hrc & Hid
            & [bi Hix] & [bc Hcx]).
    run_test. rewrite Hcat. run_test. rewrite Hchip. run_test.
    rewrite Hci, Hce. run_test. rewrite Hgp, Hie. run_test.
    destruct (read_config L) as [e|config]; [discriminate|]. run_test.
    destruct (read_device_id L) as [e|id]; run_test.
    + rewrite (Hid e eq_refl). run_test. by rewrite Hix, Hcx.
    + destruct (bool_decide (id = chip_id chip)); run_test; by rewrite Hix, Hcx.
Qed.

Lemma test_hardware_connection_passes_witness :
  (test_zif_hardware.test_hardware_connection (bench (inr [x3f; xff]))
     "/dev/ttyUSB0").2
  = Ctl.Return true.
Proof.
  apply (test_hardware_connection_passes (bench (inr [x3f; xff])) "/dev/ttyUSB0").
  exists {[ "16f887" := profile_16f887 ]}, profile_16f887.
  repeat split; try (by eexists). by intros e [= <-].
Defined.

(** X13: a missing catalog in the hardware test.  When [ChipInfoReader]
    raises [FileNotFoundError], [test_hardware_connection] reports the file
    as not found, returns [False], and has not touched the programmer: the
    reader call is the only call of the run. *)
Theorem test_hardware_connection_file_not_found (L : Lib) (port msg : string) :
  chip_info_reader L chipdata_rel = inl (Py.FileNotFoundError msg) ->
  (test_zif_hardware.test_hardware_connection L port).2 = Ctl.Return false
  /\ calls (test_zif_hardware.test_hardware_connection L port).1
     = [ReaderInit chipdata_rel]
  /\ exists tr,
       (test_zif_hardware.test_hardware_connection L port).1
       = tr ++ [ReaderInit chipdata_rel;
                Print ("❌ File not found: " +:+ msg);
                Print "Make sure you're running from the picpro directory"].
Proof.
  intros Hreader. open_test. run_test. rewrite Hreader. run_test.
  repeat split. by eexists [_; _; _; _; _; _; _].
Qed.

Lemma test_hardware_connection_file_not_found_witness :
  (test_zif_hardware.test_hardware_connection bare_machine "/dev/ttyUSB0").2
  = Ctl.Return false.
Proof.
  by destruct (test_hardware_connection_file_not_found bare_machine "/dev/ttyUSB0"
                 "No such file or directory" eq_refl) as [H _].
Defined.

Lemma test_connection_returns_closed_witness :
  (test_16f887_zif.test_connection (bench (inr [])) "/dev/ttyUSB0").2
    = Ctl.Return (Some tt)
  /\ calls (test_16f887_zif.test_connection (bench (inr [])) "/dev/ttyUSB0").1
     = [ConnectionInit "/dev/ttyUSB0"; ConnectionEnter true; ConnectionExit None]
  /\ (test_16f887_zif.test_connection bare_machine "/dev/ttyUSB0").2
     = Ctl.Return None.
Proof.
  destruct (test_connection_returns_closed (bench (inr [])) "/dev/ttyUSB0")
    as (_ & Hclosed & _).
  destruct (test_connection_returns_closed bare_machine "/dev/ttyUSB0")
    as (_ & _ & Hinit & _).
  split; [by vm_compute|]. split; [apply Hclosed; by vm_compute|].
  by apply (Hinit (Py.OtherException "SerialException" "could not open port")).
Defined.

(** ** The entry points of the test scripts *)

Lemma call_def_trace {R R'} (callee : Ctl.M R' unit) :
  (call_def (R:=R) callee).1 = callee.1.
Proof. unfold call_def, Ctl.run_def. by destruct callee as [tr [a|r|e]]. Qed.

Lemma scoped_call_def {R R'} (ni nc : nat) (callee : Ctl.M R' unit) :
  scoped ni nc callee.1 -> scoped ni nc (call_def (R:=R) callee).1.
Proof. by rewrite call_def_trace. Qed.

Lemma scoped_if {R A} (ni1 nc1 ni2 nc2 : nat) (b : bool) (m1 m2 : Ctl.M R A) :
  scoped ni1 nc1 m1.1 -> scoped ni2 nc2 m2.1 ->
  scoped (Nat.max ni1 ni2) (Nat.max nc1 nc2) (if b then m1 else m2).1.
Proof. intros H1 H2. destruct b; (eapply scoped_weaken; [eassumption|lia..]). Qed.

Lemma test_chip_info_scoped (L : Lib) :
  scoped 0 0 (test_16f887_zif.test_chip_info L).1.
Proof.
  unfold test_16f887_zif.test_chip_info, test_16f887_zif.find_chip_data, get_chip,
    mbind, mret, Ctl_bind, Ctl_ret.
  cbv beta. derive_scoped.
Qed.

(** Deriving [scoped] along [main], whose branches differ in what they
    open. *)
Ltac derive_scoped_main :=
  cbv beta zeta;
  lazymatch goal with
  | |- scoped _ _ (if _ then _ else _).1 =>
      eapply scoped_if; derive_scoped_main
  | |- scoped _ _ (Ctl.bind _ _).1 =>
      eapply scoped_bind; [derive_scoped_main | intros ?; derive_scoped_main]
  | |- scoped _ _ (call_def (test_16f887_zif.test_chip_info _)).1 =>
      apply scoped_call_def, test_chip_info_scoped
  | |- scoped _ _ (call_def (test_16f887_zif.test_connection _ _)).1 =>
      apply scoped_call_def, test_connection_scoped
  | |- scoped _ _ (call_def (test_16f887_zif.test_chip_detection _ _ _)).1 =>
      apply scoped_call_def, test_chip_detection_scoped
  | |- scoped _ _ (Ctl.print _).1 => apply scoped_print
  | |- scoped _ _ (Ctl.return_ _).1 => apply scoped_return
  end.

(** X14: [main] of the ZIF test releases what it opens.  A run enters at
    most two connections (one in [test_connection], one in
    [test_chip_detection]) and at most one programming interface, and leaves
    each of them exactly once. *)
Theorem zif_main_scoped (L_info L_conn L_detect : Lib) (args : test_16f887_zif.Args)
    (chip_info_true connection_true : bool) :
  scoped 1 2
    (test_16f887_zif.main L_info L_conn L_detect args chip_info_true
       connection_true).1.
Proof.
  unfold test_16f887_zif.main, mbind, mret, Ctl_bind, Ctl_ret. cbv beta.
  eapply scoped_weaken; [derive_scoped_main | cbn; lia | cbn; lia].
Qed.

Lemma calls_cons_print (s : string) (tr : list event) :
  calls (Print s :: tr) = calls tr.
Proof. reflexivity. Qed.

Lemma calls_nil : calls [] = [].
Proof. reflexivity. Qed.

Lemma call_def_completion {R R'} (callee : Ctl.M R' unit) (k : option R' -> Ctl.M R unit) :
  (Ctl.bind (call_def callee) k).2 =
    match callee.2 with
    | Ctl.Normal _ => (k None).2
    | Ctl.Return r => (k (Some r)).2
    | Ctl.Raise e => Ctl.Raise e
    end.
Proof.
  unfold call_def, Ctl.run_def, Ctl.bind.
  destruct callee as [tr [a|r|e]]; cbn; [by destruct (k None)|by destruct (k _)|done].
Qed.

Ltac open_zif_main :=
  unfold test_16f887_zif.main, mbind, mret, Ctl_bind, Ctl_ret; cbv beta;
  rewrite !bind_print_completion, call_def_completion.

(** X15: [--skip-hardware] keeps [main] off the programmer.  With the flag
    set, the calls of the run are those of [test_chip_info] (the catalog is
    located and read, nothing more), and the exit code is 0 exactly when
    [test_chip_info] returned a chip info that counts as true. *)
Theorem zif_main_skip_hardware (L_info L_conn L_detect : Lib)
    (args : test_16f887_zif.Args) (chip_info_true connection_true : bool) :
  test_16f887_zif.skip_hardware args = true ->
  calls (test_16f887_zif.main L_info L_conn L_detect args chip_info_true
           connection_true).1
  = calls (test_16f887_zif.test_chip_info L_info).1
  /\ ((test_16f887_zif.main L_info L_conn L_detect args chip_info_true
         connection_true).2 = Ctl.Return 0 <->
      chip_info_true = true
      /\ exists chip, (test_16f887_zif.test_chip_info L_info).2
                      = Ctl.Return (Some chip)).
Proof.
  intros Hskip. split.
  - unfold test_16f887_zif.main, mbind, mret, Ctl_bind, Ctl_ret, call_def,
      Ctl.run_def, Ctl.bind, Ctl.print, Ctl.return_. cbv beta.
    rewrite Hskip.
    destruct (test_16f887_zif.test_chip_info L_info) as [tr [a|[chip|]|e]];
      cbn [test_16f887_zif.truthy negb fst snd app];
      destruct chip_info_true; cbn [negb fst snd app];
      by rewrite ?calls_cons_print, ?calls_app, ?calls_cons_print, ?calls_nil,
           ?app_nil_r.
  - open_zif_main. rewrite Hskip.
    destruct (test_16f887_zif.test_chip_info L_info).2 as [a|[chip|]|e];
      cbn [test_16f887_zif.truthy negb].
    + split; [discriminate|]. by intros (_ & chip & [=]).
    + destruct chip_info_true; cbn [negb].
      * rewrite bind_print_completion. split; [eauto|done].
      * split; [discriminate|]. by intros ([=] & _).
    + split; [discriminate|]. by intros (_ & chip & [=]).
    + split; [discriminate|]. by intros (_ & chip & [=]).
Qed.

Lemma zif_main_skip_hardware_witness :
  (test_16f887_zif.main (bench (inr [])) bare_machine bare_machine
     {| test_16f887_zif.port := "/dev/ttyUSB0"; test_16f887_zif.icsp := false;
        test_16f887_zif.skip_hardware := true |} true true).2 = Ctl.Return 0.
Proof.
  apply (zif_main_skip_hardware (bench (inr [])) bare_machine bare_machine
           {| test_16f887_zif.port := "/dev/ttyUSB0"; test_16f887_zif.icsp := false;
              test_16f887_zif.skip_hardware := true |} true true eq_refl).
  split; [reflexivity|]. eexists. by vm_compute.
Defined.

(** The completion of [main], by the completions of the three tests. *)
Lemma zif_main_completion (L_info L_conn L_detect : Lib)
    (args : test_16f887_zif.Args) (chip_info_true connection_true : bool) :
  (test_16f887_zif.main L_info L_conn L_detect args chip_info_true connection_true).2
  = match (test_16f887_zif.test_chip_info L_info).2 with
    | Ctl.Raise e => Ctl.Raise e
    | Ctl.Return (Some _) =>
        if negb chip_info_true then Ctl.Return 1
        else if test_16f887_zif.skip_hardware args then Ctl.Return 0
        else
          match (test_16f887_zif.test_connection L_conn
                   (test_16f887_zif.port args)).2 with
          | Ctl.Raise e => Ctl.Raise e
          | Ctl.Return (Some _) =>
              if negb connection_true then Ctl.Return 1
              else
                match (test_16f887_zif.test_chip_detection L_detect
                         (test_16f887_zif.port args) (test_16f887_zif.icsp args)).2 with
                | Ctl.Raise e => Ctl.Raise e
                | Ctl.Return true => Ctl.Return 0
                | _ => Ctl.Return 1
                end
          | _ => Ctl.Return 1
          end
    | _ => Ctl.Return 1
    end.
Proof.
  open_zif_main.
  destruct (test_16f887_zif.test_chip_info L_info).2 as [a|[chip|]|e];
    cbn [test_16f887_zif.truthy negb]; try reflexivity.
  destruct chip_info_true; cbn [negb]; [|reflexivity].
  destruct (test_16f887_zif.skip_hardware args); [by rewrite bind_print_completion|].
  rewrite bind_print_completion, call_def_completion.
  destruct (test_16f887_zif.test_connection L_conn _).2 as [a|[conn|]|e];
    cbn [test_16f887_zif.truthy negb]; try reflexivity.
  destruct connection_true; cbn [negb]; [|reflexivity].
  rewrite call_def_completion.
  destruct (test_16f887_zif.test_chip_detection L_detect _ _).2 as [a|[|]|e];
    reflexivity.
Qed.

(** X16: when the ZIF test passes.  With the hardware tests not skipped,
    [main] returns exit code 0 exactly when [test_chip_info] returned a chip
    info and [test_connection] a connection, both counting as true, and
    [test_chip_detection] returned [True]; any other code it returns is 1. *)
Theorem zif_main_exit_code (L_info L_conn L_detect : Lib)
    (args : test_16f887_zif.Args) (chip_info_true connection_true : bool) :
  let run := test_16f887_zif.main L_info L_conn L_detect args chip_info_true
               connection_true in
  (forall z, run.2 = Ctl.Return z -> z = 0 \/ z = 1)
  /\ (test_16f887_zif.skip_hardware args = false ->
      run.2 = Ctl.Return 0 <->
      chip_info_true = true
      /\ (exists chip, (test_16f887_zif.test_chip_info L_info).2
                       = Ctl.Return (Some chip))
      /\ connection_true = true
      /\ (test_16f887_zif.test_connection L_conn (test_16f887_zif.port args)).2
         = Ctl.Return (Some tt)
      /\ (test_16f887_zif.test_chip_detection L_detect (test_16f887_zif.port args)
            (test_16f887_zif.icsp args)).2 = Ctl.Return true).
Proof.
  intros run. subst run. rewrite zif_main_completion.
  split.
  - intros z.
    destruct (test_16f887_zif.test_chip_info L_info).2 as [a|[chip|]|e];
      try (intros [= <-]; by right); try discriminate.
    destruct chip_info_true; cbn [negb]; [|intros [= <-]; by right].
    destruct (test_16f887_zif.skip_hardware args); [intros [= <-]; by left|].
    destruct (test_16f887_zif.test_connection L_conn _).2 as [a|[conn|]|e];
      try (intros [= <-]; by right); try discriminate.
    destruct connection_true; cbn [negb]; [|intros [= <-]; by right].
    destruct (test_16f887_zif.test_chip_detection L_detect _ _).2 as [a|[|]|e];
      try discriminate; intros [= <-]; auto.
  - intros ->.
    destruct (test_16f887_zif.test_chip_info L_info).2 as [a|[chip|]|e];
      try (split; [discriminate|by intros (_ & [? [=]] & _)]).
    destruct chip_info_true; cbn [negb];
      [|split; [discriminate|by intros ([=] & _)]].
    destruct (test_16f887_zif.test_connection L_conn _).2 as [a|[[]|]|e];
      try (split; [discriminate|by intros (_ & _ & _ & [=] & _)]).
    destruct connection_true; cbn [negb];
      [|split; [discriminate|by intros (_ & _ & [=] & _)]].
    destruct (test_16f887_zif.test_chip_detection L_detect _ _).2 as [a|[|]|e];
      try (split; [discriminate|by intros (_ & _ & _ & _ & [=])]).
    split; [|done]. intros _. repeat split; eauto.
Qed.

Lemma zif_main_exit_code_witness :
  (test_16f887_zif.main (bench (inr [])) (bench (inr [])) (bench (inr [x3f]))
     {| test_16f887_zif.port := "/dev/ttyUSB0"; test_16f887_zif.icsp := true;
        test_16f887_zif.skip_hardware := false |} true true).2 = Ctl.Return 0.
Proof.
  apply (zif_main_exit_code (bench (inr [])) (bench (inr [])) (bench (inr [x3f]))
           {| test_16f887_zif.port := "/dev/ttyUSB0"; test_16f887_zif.icsp := true;
              test_16f887_zif.skip_hardware := false |} true true); [reflexivity|].
  repeat split; try (by vm_compute). eexists. by vm_compute.
Defined.

(** X17: the entry of the hardware test.  The port is the first argument
    and [/dev/ttyUSB0] when there is none, further arguments are ignored;
    the exit code is 0 exactly when [test_hardware_connection] returned
    [True], and 1 on every other return. *)
Theorem hardware_script_exit_code (L : Lib) (prog port : string) (rest : list string) :
  test_zif_hardware.script L [prog] = test_zif_hardware.script L [prog; "/dev/ttyUSB0"]
  /\ test_zif_hardware.script L (prog :: port :: rest)
     = test_zif_hardware.script L [prog; port]
  /\ (test_zif_hardware.script L (prog :: port :: rest)).2
     = match (test_zif_hardware.test_hardware_connection L port).2 with
       | Ctl.Raise e => Ctl.Raise e
       | Ctl.Return true => Ctl.Return 0
       | _ => Ctl.Return 1
       end
  /\ (test_zif_hardware.script L (prog :: port :: rest)).1
     = (test_zif_hardware.test_hardware_connection L port).1.
Proof.
  split; [reflexivity|]. split; [reflexivity|].
  unfold test_zif_hardware.script, mbind, Ctl_bind. cbn [length Nat.ltb Nat.leb].
  change ((prog :: port :: rest) !! 1%nat) with (Some port). cbn [default id].
  unfold id. split.
  - rewrite call_def_completion.
    by destruct (test_zif_hardware.test_hardware_connection L port).2 as [a|[|]|e].
  - unfold call_def, Ctl.run_def, Ctl.bind, Ctl.return_.
    destruct (test_zif_hardware.test_hardware_connection L port) as [tr [a|r|e]];
      cbn; by rewrite ?app_nil_r.
Qed.

End TestScripts.
